(** * Clear-Bill audit engine: a shallow embedding of [backend/audit_service.py]

    The development follows the Python module function by function:
    - Python values (the result of [json.loads], extracted fields) are the
      inductive [pyval]; a Python [float] is an IEEE binary64 number
      ([PrimFloat.float]); a [str] is a [string] of ASCII characters;
    - code that can raise returns in the error monad [res];
    - the dictionary [rules_dict] is a [gmap string AuditRule];
    - the interpreter's library functions the module calls ([json.loads],
      [re.search], [float] of a string, ...) are the fields of the
      interface [Builtins]. *)

From Stdlib Require Import ZArith List Bool Ascii String Floats.
From stdpp Require Import base option gmap strings pretty.
Import ListNotations.

Open Scope string_scope.
Open Scope Z_scope.

(** ** Python strings *)

Module PyString.

Definition is_upper (c : ascii) : bool :=
  let n := nat_of_ascii c in (Nat.leb 65 n && Nat.leb n 90)%bool.

Definition is_lower (c : ascii) : bool :=
  let n := nat_of_ascii c in (Nat.leb 97 n && Nat.leb n 122)%bool.

Definition lower_char (c : ascii) : ascii :=
  if is_upper c then ascii_of_nat (nat_of_ascii c + 32) else c.

Definition upper_char (c : ascii) : ascii :=
  if is_lower c then ascii_of_nat (nat_of_ascii c - 32) else c.

(** [s.lower()] *)
Fixpoint lower (s : string) : string :=
  match s with
  | EmptyString => EmptyString
  | String c s' => String (lower_char c) (lower s')
  end.

(** [sub in s]: substring test; the empty string is in every string. *)
Fixpoint contains (sub s : string) : bool :=
  (String.prefix sub s
   || match s with
      | EmptyString => false
      | String _ s' => contains sub s'
      end)%bool.

(** [any(k in content for k in keywords)] *)
Definition any_in (keywords : list string) (content : string) : bool :=
  existsb (fun k => contains k content) keywords.

(** [[k for k in keywords if k in content]] *)
Definition found_in (keywords : list string) (content : string) : list string :=
  List.filter (fun k => contains k content) keywords.

(** ASCII white space, as [str.strip()] and [str.split()] see it. *)
Definition is_space (c : ascii) : bool :=
  let n := nat_of_ascii c in
  ((Nat.leb 9 n && Nat.leb n 13) || (Nat.leb 28 n && Nat.leb n 32))%bool.

Fixpoint lstrip (s : string) : string :=
  match s with
  | EmptyString => EmptyString
  | String c s' => if is_space c then lstrip s' else s
  end.

(** [rstrip] returns the empty string for an all-blank suffix. *)
Fixpoint rstrip (s : string) : string :=
  match s with
  | EmptyString => EmptyString
  | String c s' =>
      match rstrip s' with
      | EmptyString => if is_space c then EmptyString else String c EmptyString
      | r => String c r
      end
  end.

(** [s.strip()] *)
Definition strip (s : string) : string := rstrip (lstrip s).

(** [s.split(sep)] for a one-character separator: never the empty list. *)
Fixpoint split_char (sep : ascii) (s : string) : list string :=
  match s with
  | EmptyString => [EmptyString]
  | String c s' =>
      if Ascii.eqb c sep then EmptyString :: split_char sep s'
      else match split_char sep s' with
           | [] => [String c EmptyString]
           | w :: ws => String c w :: ws
           end
  end.

(** [s.replace(a, b)] for one-character [a] and [b]. *)
Fixpoint replace_char (a b : ascii) (s : string) : string :=
  match s with
  | EmptyString => EmptyString
  | String c s' => String (if Ascii.eqb c a then b else c) (replace_char a b s')
  end.

(** [s.replace(a, '')] for a one-character [a]. *)
Fixpoint remove_char (a : ascii) (s : string) : string :=
  match s with
  | EmptyString => EmptyString
  | String c s' => if Ascii.eqb c a then remove_char a s' else String c (remove_char a s')
  end.

(** [s.title()]: a letter that follows a letter is lowered, any other
    letter is raised. *)
Fixpoint title_from (prev_cased : bool) (s : string) : string :=
  match s with
  | EmptyString => EmptyString
  | String c s' =>
      let cased := (is_upper c || is_lower c)%bool in
      String (if prev_cased then lower_char c else upper_char c) (title_from cased s')
  end.

Definition title (s : string) : string := title_from false s.

(** [sep.join(l)] *)
Fixpoint join (sep : string) (l : list string) : string :=
  match l with
  | [] => ""
  | [x] => x
  | x :: rest => x ++ sep ++ join sep rest
  end.

(** [str(n)] for an [int]. *)
Definition of_Z (n : Z) : string := pretty n.

End PyString.

(** ** Python values and exceptions *)

(** A Python object as [json.loads] builds it or as a field dictionary
    holds it. A [dict] has string keys and keeps insertion order: it is an
    association list whose keys are pairwise distinct. *)
#[warnings="-register-all"]
Inductive pyval : Type :=
| PyNone
| PyBool (b : bool)
| PyInt (n : Z)
| PyFloat (x : float)
| PyStr (s : string)
| PyList (l : list pyval)
| PyDict (d : list (string * pyval)).

Definition pydict := list (string * pyval).

(** The exception classes the module can meet. [JSONDecodeError] is the one
    the orchestrator treats apart; all of them derive from [Exception]. *)
Inductive exn_class : Type :=
| JSONDecodeError
| AttributeError
| TypeError
| ValueError
| OverflowError
| NameError
| RegexError
| OtherException.

(** An exception: its class and [str(e)]. *)
Record exn : Type := Exn { exn_cls : exn_class; exn_text : string }.

Definition is_json_decode_error (e : exn) : bool :=
  match exn_cls e with JSONDecodeError => true | _ => false end.

(** A computation that returns a value or raises. *)
Inductive res (A : Type) : Type :=
| Return (a : A)
| Raise (e : exn).
Arguments Return {A} a.
Arguments Raise {A} e.

#[export] Instance res_ret : MRet res := fun A a => Return a.
#[export] Instance res_bind : MBind res := fun A B f m =>
  match m with
  | Return a => f a
  | Raise e => Raise e
  end.

Definition raise {A} (c : exn_class) (msg : string) : res A := Raise (Exn c msg).

(** [for x in l: st = body(x, st)], stopping at the first exception. *)
Fixpoint for_each {A S : Type} (body : A -> S -> res S) (l : list A) (st : S) : res S :=
  match l with
  | [] => Return st
  | x :: l' => st' ← body x st; for_each body l' st'
  end.

(** ** Python numbers *)

Module PyFloat.

(** [float(n)] for an [int]: the nearest binary64 number, ties to even;
    [OverflowError] when that is out of range. *)
Definition of_int (n : Z) : res float :=
  match binary_normalize prec emax n 0 false with
  | S754_infinity _ => raise OverflowError "int too large to convert to float"
  | sf => Return (SF2Prim sf)
  end.

(** [float(n)] for an [int] known to be small (a length, a constant). *)
Definition of_small_int (n : Z) : float :=
  SF2Prim (binary_normalize prec emax n 0 false).

(** [a > b] *)
Definition gt (a b : float) : bool := PrimFloat.ltb b a.

(** [a < b] *)
Definition lt (a b : float) : bool := PrimFloat.ltb a b.

(** [bool(x)]: every float but the two zeros is true. *)
Definition truthy (x : float) : bool := negb (PrimFloat.eqb x 0%float).

(** The integer nearest to [m * 2^e * 100], ties to even. *)
Definition scaled_half_even (m : positive) (e : Z) : Z :=
  let n := Z.pos m * 100 in
  match e with
  | Zneg p =>
      let d := Z.pow 2 (Z.pos p) in
      let q := n / d in
      let r := n mod d in
      match Z.compare (2 * r) d with
      | Lt => q
      | Gt => q + 1
      | Eq => if Z.even q then q else q + 1
      end
  | _ => n * Z.pow 2 e
  end.

(** [round(x, 2)] for a float: the binary64 number nearest to the decimal
    that is [x] rounded to two places, ties to even; a zero, an infinity
    and a NaN round to themselves. *)
Definition round2 (x : float) : float :=
  match Prim2SF x with
  | S754_finite s m e =>
      match scaled_half_even m e with
      | Zpos k => SF2Prim (SFdiv prec emax (S754_finite s k 0) (S754_finite false 100 0))
      | _ => SF2Prim (S754_zero s)
      end
  | _ => x
  end.

End PyFloat.

(** A Python number: an [int] or a [float]. *)
Inductive pynum : Type :=
| NInt (n : Z)
| NFloat (x : float).

(** [max(0, x)] for a float [x]: [x] when [x > 0], else the int [0]. *)
Definition py_max0 (x : float) : pynum :=
  if PyFloat.gt x 0%float then NFloat x else NInt 0.

(** [round(v, 2)]: an [int] is unchanged. *)
Definition py_round2 (v : pynum) : pynum :=
  match v with
  | NInt n => NInt n
  | NFloat x => NFloat (PyFloat.round2 x)
  end.

(** [a / b * 100] for ints [a] and [b <> 0] below [2^53], as lengths are. *)
Definition percent_of (a b : Z) : float :=
  (PyFloat.of_small_int a / PyFloat.of_small_int b * 100)%float.

(** ** The interpreter's library *)

(** What the module calls and does not define. [json_loads s] is
    [json.loads(s)]: the parsed value, [JSONDecodeError] on malformed text, or
    another exception; [float_of_str] and [int_of_str] are [float(s)] and
    [int(s)] on a string, [None] standing for [ValueError];
    [re_search p s] is group 1 of [re.search(p, s, re.IGNORECASE)];
    [re_match p s] tells whether [re.match(p, s)] finds a match and raises
    on a pattern that does not compile; [py_repr] is the text of a value
    that is not a string; [today] is the ordinal of [datetime.now()]'s date. *)
Class Builtins : Type := {
  json_loads : string -> res pyval;
  float_of_str : string -> option float;
  int_of_str : string -> option Z;
  re_search : string -> string -> option string;
  re_match : string -> string -> res bool;
  py_repr : pyval -> string;
  today : Z
}.

(** [type(v).__name__] *)
Definition type_name (v : pyval) : string :=
  match v with
  | PyNone => "NoneType"
  | PyBool _ => "bool"
  | PyInt _ => "int"
  | PyFloat _ => "float"
  | PyStr _ => "str"
  | PyList _ => "list"
  | PyDict _ => "dict"
  end.

(** [bool(v)] *)
Definition truthy (v : pyval) : bool :=
  match v with
  | PyNone => false
  | PyBool b => b
  | PyInt n => negb (n =? 0)
  | PyFloat x => PyFloat.truthy x
  | PyStr s => negb (String.eqb s "")
  | PyList l => match l with [] => false | _ => true end
  | PyDict d => match d with [] => false | _ => true end
  end.

(** The binding of key [k] in a dictionary. *)
Fixpoint dict_lookup (d : pydict) (k : string) : option pyval :=
  match d with
  | [] => None
  | (k', v) :: d' => if String.eqb k' k then Some v else dict_lookup d' k
  end.

(** [d[k] = v] *)
Fixpoint dict_set (d : pydict) (k : string) (v : pyval) : pydict :=
  match d with
  | [] => [(k, v)]
  | (k', v') :: d' => if String.eqb k' k then (k, v) :: d' else (k', v') :: dict_set d' k v
  end.

(** [d.get(k)] on a dictionary: [None] when the key is absent. *)
Definition dict_get (d : pydict) (k : string) : pyval :=
  default PyNone (dict_lookup d k).

(** [o.get(k, dflt)]: only a [dict] has the method. *)
Definition py_get (o : pyval) (k : string) (dflt : pyval) : res pyval :=
  match o with
  | PyDict d => Return (default dflt (dict_lookup d k))
  | _ => raise AttributeError ("'" ++ type_name o ++ "' object has no attribute 'get'")
  end.

Fixpoint chars (s : string) : list pyval :=
  match s with
  | EmptyString => []
  | String c s' => PyStr (String c EmptyString) :: chars s'
  end.

(** The elements [for x in o] visits: those of a list, the characters of a
    string, the keys of a dictionary. *)
Definition py_iter (o : pyval) : res (list pyval) :=
  match o with
  | PyList l => Return l
  | PyStr s => Return (chars s)
  | PyDict d => Return (map (fun kv => PyStr (fst kv)) d)
  | _ => raise TypeError ("'" ++ type_name o ++ "' object is not iterable")
  end.

Section WithBuiltins.
Context {B : Builtins}.

(** [str(v)], also what an f-string prints for [v]. *)
Definition py_str (v : pyval) : string :=
  match v with
  | PyStr s => s
  | _ => py_repr v
  end.

(** [float(v)] *)
Definition py_float (v : pyval) : res float :=
  match v with
  | PyFloat x => Return x
  | PyInt n => PyFloat.of_int n
  | PyBool b => Return (if b then 1%float else 0%float)
  | PyStr s =>
      match float_of_str s with
      | Some x => Return x
      | None => raise ValueError ("could not convert string to float: " ++ py_repr v)
      end
  | _ => raise TypeError
           ("float() argument must be a string or a real number, not '" ++ type_name v ++ "'")
  end.

End WithBuiltins.

(** ** Data model *)

(** A row of the [audit_rules] table. *)
Record AuditRule : Type := {
  category : string;
  max_limit : float;
  is_restricted : bool;
  description : string
}.

(** A row of the [audit_policies] table. [severity] is [None] when the
    record has no such attribute, the case [getattr]'s default covers. *)
Record AuditPolicy : Type := {
  rule_name : string;
  rule_type : string;
  field_name : string;
  condition : string;
  expected_value : option string;
  severity : option string;
  is_active : bool
}.

(** A violation dictionary; [flagged_items] is [None] when the key is absent. *)
Record Violation : Type := {
  v_rule_name : string;
  v_field_name : string;
  violation_type : string;
  v_severity : string;
  message : string;
  flagged_items : option (list pyval)
}.

Record AuditResult : Type := {
  is_compliant : bool;
  total_violations : Z;
  violations : list Violation;
  compliance_score : pynum;
  summary : string;
  approval_status : option string;
  status_color : option string
}.

(** [len(l)] *)
Definition len {A} (l : list A) : Z := Z.of_nat (length l).

(** The rules [create_default_audit_rules] seeds. *)
Definition default_rules : list AuditRule := [
  {| category := "Food"; max_limit := 1500%float; is_restricted := false;
     description := "Per meal allowance for employees." |};
  {| category := "Travel"; max_limit := 10000%float; is_restricted := false;
     description := "Inter-city travel and hotel stays." |};
  {| category := "Utility"; max_limit := 5000%float; is_restricted := false;
     description := "Internet, electricity, and phone bills." |};
  {| category := "Office Supplies"; max_limit := 3000%float; is_restricted := false;
     description := "Stationery and small equipment." |};
  {| category := "Alcohol"; max_limit := 0%float; is_restricted := true;
     description := "Strictly prohibited for reimbursement." |};
  {| category := "Entertainment"; max_limit := 0%float; is_restricted := true;
     description := "Personal movies, spas, or leisure activities." |};
  {| category := "Jewelry"; max_limit := 0%float; is_restricted := true;
     description := "High-risk personal luxury items." |};
  {| category := "Others"; max_limit := 1000%float; is_restricted := false;
     description := "General catch-all category for small items." |}
].

(** ** [perform_audit]: the orchestrator and the category audit *)

(** [{rule.category: rule for rule in audit_rules}]: a later rule replaces an
    earlier one of the same category. *)
Definition rules_dict_of (audit_rules : list AuditRule) : gmap string AuditRule :=
  fold_left (fun d rule => <[category rule := rule]> d) audit_rules ∅.

(** [rules_dict.get(key)]: the rule stored under a string key; no rule under
    a key of another hashable type; [TypeError] for a list or a dictionary. *)
Definition rules_get (rules_dict : gmap string AuditRule) (key : pyval)
  : res (option AuditRule) :=
  match key with
  | PyStr c => Return (rules_dict !! c)
  | PyList _ | PyDict _ => raise TypeError ("unhashable type: '" ++ type_name key ++ "'")
  | _ => Return None
  end.

(** The three lists the loop of [perform_audit] appends to. *)
Record audit_state : Type := {
  st_violations : list Violation;
  restricted_items : list pyval;
  amount_violations : list pyval
}.

Definition initial_state : audit_state :=
  {| st_violations := []; restricted_items := []; amount_violations := [] |}.

Definition invoice_keywords : list string :=
  ["invoice"; "bill"; "receipt"; "total"; "amount"; "price"; "cost"; "payment"].

Definition alcohol_keywords : list string :=
  ["whiskey"; "scotch"; "beer"; "wine"; "vodka"; "rum"; "gin"; "alcohol"; "liquor";
   "champagne"; "cocktail"].

Section PerformAudit.
Context {B : Builtins}.

Definition restricted_violation (item_name category : pyval) : Violation :=
  {| v_rule_name := py_str category ++ " - Restricted Category";
     v_field_name := "category";
     violation_type := "restricted_item";
     v_severity := "high";
     message := py_str item_name ++ " (" ++ py_str category ++ ") is strictly prohibited";
     flagged_items := Some [item_name] |}.

Definition amount_violation (item_name category : pyval) (amount : float) (rule : AuditRule)
  : Violation :=
  {| v_rule_name := py_str category ++ " - Amount Limit Exceeded";
     v_field_name := "amount";
     violation_type := "amount_exceeded";
     v_severity := "medium";
     message := py_str item_name ++ " amount Rs." ++ py_repr (PyFloat amount)
                ++ " exceeds " ++ py_str category ++ " limit of Rs."
                ++ py_repr (PyFloat (max_limit rule));
     flagged_items := Some [item_name] |}.

(** The body of [for item in items]. *)
Definition audit_item (rules_dict : gmap string AuditRule) (item : pyval) (st : audit_state)
  : res audit_state :=
  item_name ← py_get item "name" (PyStr "");
  category ← py_get item "category" (PyStr "Others");
  raw_amount ← py_get item "amount" (PyInt 0);
  amount ← py_float raw_amount;
  found ← rules_get rules_dict category;
  let rule := match found with
              | Some rule => Some rule
              | None => rules_dict !! "Others"
              end in
  match rule with
  | Some rule =>
      if is_restricted rule then
        Return {| st_violations := st_violations st ++ [restricted_violation item_name category];
                  restricted_items := restricted_items st ++ [item_name];
                  amount_violations := amount_violations st |}
      else if PyFloat.gt amount (max_limit rule) then
        Return {| st_violations := st_violations st
                                   ++ [amount_violation item_name category amount rule];
                  restricted_items := restricted_items st;
                  amount_violations := amount_violations st ++ [item_name] |}
      else Return st
  | None => Return st
  end.

(** What follows the loop: the decision, the summary and the result. *)
Definition decide_result (st : audit_state) : AuditResult :=
  let has_restricted := 0 <? len (restricted_items st) in
  let has_amount_violations := 0 <? len (amount_violations st) in
  let '(status, color, score) :=
    if has_restricted then ("rejected", "red", 0)
    else if has_amount_violations then ("warning", "yellow", 50)
    else ("approved", "green", 100) in
  let summary :=
    match st_violations st with
    | [] => "All items approved - No policy violations found"
    | _ =>
        if has_restricted then
          "Cannot approve - " ++ PyString.of_Z (len (restricted_items st))
          ++ " restricted items found"
        else
          "Warning - " ++ PyString.of_Z (len (amount_violations st))
          ++ " items exceed category limits"
    end in
  {| is_compliant := String.eqb status "approved";
     total_violations := len (st_violations st);
     violations := st_violations st;
     compliance_score := NInt score;
     summary := summary;
     approval_status := Some status;
     status_color := Some color |}.

(** The [try] block: [db] is the list [db.query(AuditRule).all()] returns. *)
Definition perform_audit_try (groq_response json_data : string) (db : list AuditRule)
  : res AuditResult :=
  invoice_data ← json_loads json_data;
  items ← py_get invoice_data "items" (PyList []);
  total_amount ← py_get invoice_data "total_amount" (PyInt 0);
  let audit_rules := db in
  let rules_dict := rules_dict_of audit_rules in
  item_list ← py_iter items;
  st ← for_each (audit_item rules_dict) item_list initial_state;
  Return (decide_result st).

(** The handler [except json.JSONDecodeError]. *)
Definition keyword_fallback (groq_response : string) : AuditResult :=
  let content := PyString.lower groq_response in
  let has_invoice_format := PyString.any_in invoice_keywords content in
  if negb has_invoice_format then
    {| is_compliant := true;
       total_violations := 0;
       violations := [];
       compliance_score := NInt 100;
       summary := "Document processed - Not an invoice, no audit required";
       approval_status := Some "approved";
       status_color := Some "green" |}
  else
    let found_alcohol := PyString.found_in alcohol_keywords content in
    match found_alcohol with
    | _ :: _ =>
        {| is_compliant := false;
           total_violations := 1;
           violations := [
             {| v_rule_name := "Alcohol - Restricted Category";
                v_field_name := "content";
                violation_type := "restricted_item";
                v_severity := "high";
                message := "Document contains alcohol-related items: "
                           ++ PyString.join ", " found_alcohol;
                flagged_items := Some (map PyStr found_alcohol) |}];
           compliance_score := NInt 0;
           summary := "Cannot approve - Alcohol items detected";
           approval_status := Some "rejected";
           status_color := Some "red" |}
    | [] =>
        {| is_compliant := true;
           total_violations := 0;
           violations := [];
           compliance_score := NInt 100;
           summary := "Document approved - No restricted items detected";
           approval_status := Some "approved";
           status_color := Some "green" |}
    end.

(** The handler [except Exception as e]. *)
Definition processing_error (e : exn) : AuditResult :=
  {| is_compliant := false;
     total_violations := 1;
     violations := [
       {| v_rule_name := "Audit Processing Error";
          v_field_name := "system";
          violation_type := "processing_error";
          v_severity := "high";
          message := "Error processing audit: " ++ exn_text e;
          flagged_items := None |}];
     compliance_score := NInt 0;
     summary := "Audit processing failed";
     approval_status := None;
     status_color := None |}.

(** The statements the source has after the last handler cannot be reached:
    the [try] block and both handlers return. *)
Definition perform_audit (groq_response json_data : string) (db : list AuditRule)
  : AuditResult :=
  match perform_audit_try groq_response json_data db with
  | Return result => result
  | Raise e =>
      if is_json_decode_error e then keyword_fallback groq_response
      else processing_error e
  end.

End PerformAudit.

(** ** [extract_invoice_data]: the field extractor *)

Definition invoice_patterns : list string := [
  "invoice\s*(?:number|#|no\.?)\s*:?\s*([A-Z0-9-]+)";
  "inv\s*(?:number|#|no\.?)\s*:?\s*([A-Z0-9-]+)";
  "bill\s*(?:number|#|no\.?)\s*:?\s*([A-Z0-9-]+)"
].

Definition amount_patterns : list string := [
  "(?:total|amount|sum)\s*:?\s*\$?([0-9,]+\.?[0-9]*)";
  "\$([0-9,]+\.?[0-9]*)";
  "([0-9,]+\.?[0-9]*)\s*(?:dollars?|usd|\$)"
].

Definition date_patterns : list string := [
  "date\s*:?\s*([0-9]{1,2}[/-][0-9]{1,2}[/-][0-9]{2,4})";
  "([0-9]{1,2}[/-][0-9]{1,2}[/-][0-9]{2,4})";
  "([A-Za-z]+ [0-9]{1,2},? [0-9]{4})"
].

Definition vendor_patterns : list string := [
  "(?:from|vendor|company|business)\s*:?\s*([A-Za-z\s&.,]+?)(?:\n|$|[0-9])";
  "bill\s+from\s+([A-Za-z\s&.,]+?)(?:\n|$|[0-9])";
  "invoice\s+from\s+([A-Za-z\s&.,]+?)(?:\n|$|[0-9])"
].

Definition business_indicators : list string :=
  ["company"; "corp"; "inc"; "ltd"; "llc"; "store"; "shop"; "restaurant"; "cafe"; "hotel";
   "market"; "business"; "enterprise"; "services"; "solutions"].

Section ExtractInvoiceData.
Context {B : Builtins}.

(** A loop that stores group 1 of the first pattern that matches. *)
Fixpoint first_group (patterns : list string) (text : string) : option string :=
  match patterns with
  | [] => None
  | pattern :: rest =>
      match re_search pattern text with
      | Some g => Some g
      | None => first_group rest text
      end
  end.

(** The amount loop: a match whose text [float] refuses is passed over. *)
Fixpoint extract_amount (patterns : list string) (text : string) : option float :=
  match patterns with
  | [] => None
  | pattern :: rest =>
      match re_search pattern text with
      | Some g =>
          let amount_str := PyString.remove_char "," g in
          match float_of_str amount_str with
          | Some amount => Some amount
          | None => extract_amount rest text
          end
      | None => extract_amount rest text
      end
  end.

(** The vendor loop: a match of at most two characters is passed over. *)
Fixpoint extract_vendor (patterns : list string) (text : string) : option string :=
  match patterns with
  | [] => None
  | pattern :: rest =>
      match re_search pattern text with
      | Some g =>
          let vendor_name := PyString.strip g in
          if (2 <? String.length vendor_name)%nat then Some vendor_name
          else extract_vendor rest text
      | None => extract_vendor rest text
      end
  end.

(** [invoice_data[k] = v] when the loop found a value. *)
Definition set_if_found (d : pydict) (k : string) (v : option pyval) : pydict :=
  match v with
  | Some v => dict_set d k v
  | None => d
  end.

Definition extract_invoice_data (groq_response : string) : pydict :=
  let invoice_data := [] in
  let invoice_data :=
    set_if_found invoice_data "invoice_number"
      (PyStr <$> first_group invoice_patterns groq_response) in
  let invoice_data :=
    set_if_found invoice_data "amount"
      (PyFloat <$> extract_amount amount_patterns groq_response) in
  let invoice_data :=
    set_if_found invoice_data "date"
      (PyStr <$> first_group date_patterns groq_response) in
  let content_lower := PyString.lower groq_response in
  let invoice_data :=
    set_if_found invoice_data "vendor_name"
      (PyStr <$> extract_vendor vendor_patterns groq_response) in
  match dict_lookup invoice_data "vendor_name" with
  | Some _ => invoice_data
  | None =>
      if PyString.any_in business_indicators content_lower
      then dict_set invoice_data "vendor_name" (PyStr "Business entity detected")
      else invoice_data
  end.

End ExtractInvoiceData.

(** ** [validate_against_policies]: the policy evaluator *)

(** The names bound at the top level of [audit_service.py]: its imports and
    its functions. *)
Definition module_globals : list string :=
  ["json"; "re"; "datetime"; "timedelta"; "Dict"; "List"; "Any"; "Tuple"; "Session";
   "AuditPolicy"; "AuditRule"; "AuditResult"; "create_default_audit_rules";
   "create_default_audit_policies"; "validate_bill_format"; "extract_invoice_data";
   "validate_against_policies"; "perform_audit"; "perform_audit_with_mock";
   "perform_basic_audit"].

(** Reading, as a string to be lowered, a name that is not a parameter or a
    local of the running function: a module or a function has no [lower],
    and a name the module does not bind is undefined. *)
Definition load_global_str (name : string) : res string :=
  if existsb (String.eqb name) module_globals
  then raise AttributeError ("object '" ++ name ++ "' has no attribute 'lower'")
  else raise NameError ("name '" ++ name ++ "' is not defined").

(** [except (ValueError, TypeError)]: [JSONDecodeError] derives from
    [ValueError]. *)
Definition is_value_or_type_error (e : exn) : bool :=
  match exn_cls e with
  | ValueError | TypeError | JSONDecodeError => true
  | _ => false
  end.

(** [timedelta(days=n)] and a date minus it: both have a range. *)
Definition max_timedelta_days : Z := 999999999.
Definition max_date_ordinal : Z := 3652059.

(** The value of an attribute that is a string or [None]. *)
Definition of_opt_str (o : option string) : pyval :=
  match o with
  | Some s => PyStr s
  | None => PyNone
  end.

Section ValidateAgainstPolicies.
Context {B : Builtins}.

Definition policy_violation (policy : AuditPolicy) (vtype dflt_severity msg : string)
  (flagged : option (list pyval)) : Violation :=
  {| v_rule_name := rule_name policy;
     v_field_name := field_name policy;
     violation_type := vtype;
     v_severity := default dflt_severity (severity policy);
     message := msg;
     flagged_items := flagged |}.

(** [policy.field_name.replace('_', ' ').title()] *)
Definition field_title (policy : AuditPolicy) : string :=
  PyString.title (PyString.replace_char "_" " " (field_name policy)).

Definition check_required_field (policy : AuditPolicy) (field_value : pyval)
  : res (option Violation) :=
  if (String.eqb (condition policy) "exists" && negb (truthy field_value))%bool then
    Return (Some (policy_violation policy "missing_field" "medium"
                    (field_title policy ++ " is required but missing") None))
  else Return None.

Definition check_amount_limit (policy : AuditPolicy) (field_value : pyval)
  : res (option Violation) :=
  let attempt :=
    amount ← py_float field_value;
    limit ← py_float (of_opt_str (expected_value policy));
    if (String.eqb (condition policy) "max_value" && PyFloat.gt amount limit)%bool then
      Return (Some (policy_violation policy "amount_exceeded" "medium"
                      ("Amount $" ++ py_repr (PyFloat amount)
                       ++ " exceeds maximum limit of $" ++ py_repr (PyFloat limit)) None))
    else if (String.eqb (condition policy) "min_value" && PyFloat.lt amount limit)%bool then
      Return (Some (policy_violation policy "amount_below_minimum" "medium"
                      ("Amount $" ++ py_repr (PyFloat amount)
                       ++ " is below minimum limit of $" ++ py_repr (PyFloat limit)) None))
    else Return None in
  match attempt with
  | Return v => Return v
  | Raise e => if is_value_or_type_error e then Return None else Raise e
  end.

(** The scanned text is read from the name [groq_response], which is not a
    parameter of [validate_against_policies]. *)
Definition check_content_warning (policy : AuditPolicy) : res (option Violation) :=
  if String.eqb (condition policy) "contains_keywords" then
    match expected_value policy with
    | None => raise AttributeError "'NoneType' object has no attribute 'split'"
    | Some expected =>
        let keywords :=
          map (fun kw => PyString.lower (PyString.strip kw))
              (PyString.split_char "," expected) in
        groq_response ← load_global_str "groq_response";
        let content_text := PyString.lower groq_response in
        let found_keywords := PyString.found_in keywords content_text in
        match found_keywords with
        | _ :: _ =>
            Return (Some (policy_violation policy "content_warning" "warning"
                            ("Content contains flagged items: "
                             ++ PyString.join ", " found_keywords)
                            (Some (map PyStr found_keywords))))
        | [] => Return None
        end
    end
  else Return None.

Definition check_format (policy : AuditPolicy) (field_value : pyval)
  : res (option Violation) :=
  if String.eqb (condition policy) "format_match" then
    match expected_value policy with
    | None => raise TypeError "first argument must be string or compiled pattern"
    | Some pattern =>
        matched ← re_match pattern (py_str field_value);
        if negb matched then
          Return (Some (policy_violation policy "format_mismatch" "medium"
                          (field_title policy ++ " format is invalid") None))
        else Return None
    end
  else Return None.

Definition check_date_range (policy : AuditPolicy) (field_value : pyval)
  : res (option Violation) :=
  if String.eqb (condition policy) "within_days" then
    match expected_value policy with
    | None => Return None
    | Some expected =>
        match int_of_str expected with
        | None => Return None
        | Some days_limit =>
            if max_timedelta_days <? Z.abs days_limit then
              raise OverflowError
                ("days=" ++ PyString.of_Z days_limit ++ "; must have magnitude <= 999999999")
            else
              let cutoff_ordinal := today - days_limit in
              if ((0 <? cutoff_ordinal) && (cutoff_ordinal <=? max_date_ordinal))%bool then
                let text := PyString.lower (py_str field_value) in
                if (PyString.contains "old" text || PyString.contains "expired" text)%bool
                then
                  Return (Some (policy_violation policy "date_out_of_range" "medium"
                                  "Invoice date appears to be outside acceptable range" None))
                else Return None
              else raise OverflowError "date value out of range"
        end
    end
  else Return None.

(** The body of [for policy in policies] for an active policy: the
    violation it finds, if any. *)
Definition check_policy (invoice_data : pydict) (policy : AuditPolicy)
  : res (option Violation) :=
  let field_value := dict_get invoice_data (field_name policy) in
  if String.eqb (rule_type policy) "required_field" then
    check_required_field policy field_value
  else if (String.eqb (rule_type policy) "amount_limit" && truthy field_value)%bool then
    check_amount_limit policy field_value
  else if String.eqb (rule_type policy) "content_warning" then
    check_content_warning policy
  else if (String.eqb (rule_type policy) "format_check" && truthy field_value)%bool then
    check_format policy field_value
  else if (String.eqb (rule_type policy) "date_range" && truthy field_value)%bool then
    check_date_range policy field_value
  else Return None.

Definition policy_step (invoice_data : pydict) (policy : AuditPolicy)
  (violations : list Violation) : res (list Violation) :=
  if negb (is_active policy) then Return violations
  else
    violation ← check_policy invoice_data policy;
    match violation with
    | Some v => Return (violations ++ [v])%list
    | None => Return violations
    end.

Definition is_warning (v : Violation) : bool := String.eqb (v_severity v) "warning".

Definition is_error (v : Violation) : bool :=
  existsb (String.eqb (v_severity v)) ["medium"; "high"].

(** What follows the loop: the score, the summary and the result. *)
Definition score_result (total_rules : Z) (violations : list Violation) : AuditResult :=
  let warnings := List.filter is_warning violations in
  let errors := List.filter is_error violations in
  let compliance_score :=
    if 0 <? total_rules
    then py_max0 (percent_of (total_rules - len errors) total_rules)
    else NInt 100 in
  let summary :=
    if len violations =? 0 then "Invoice is fully compliant with all audit policies"
    else
      let warning_text :=
        match warnings with
        | _ :: _ => ", " ++ PyString.of_Z (len warnings) ++ " warnings"
        | [] => ""
        end in
      "Invoice has " ++ PyString.of_Z (len errors) ++ " policy violations" ++ warning_text
      ++ " out of " ++ PyString.of_Z total_rules ++ " rules checked" in
  {| is_compliant := len violations =? 0;
     total_violations := len violations;
     violations := violations;
     compliance_score := py_round2 compliance_score;
     summary := summary;
     approval_status := None;
     status_color := None |}.

Definition validate_against_policies (invoice_data : pydict) (policies : list AuditPolicy)
  : res AuditResult :=
  let total_rules := len (List.filter is_active policies) in
  violations ← for_each (policy_step invoice_data) policies [];
  Return (score_result total_rules violations).

(** [perform_basic_audit], given the active policies the query returns. *)
Definition perform_basic_audit (groq_response : string) (policies : list AuditPolicy)
  : res AuditResult :=
  let invoice_data := extract_invoice_data groq_response in
  validate_against_policies invoice_data policies.

End ValidateAgainstPolicies.

(** ** Vocabulary of the statements *)

(** A line item as the loop of [perform_audit] reads it from an element of
    [items]. *)
Record LineItem : Type := {
  item_name : pyval;
  item_category : pyval;
  item_amount : float
}.

(** A dictionary key must be hashable: a list or a dictionary is not. *)
Definition hashable (v : pyval) : bool :=
  match v with
  | PyList _ | PyDict _ => false
  | _ => true
  end.

(** The rule of a category: the rule keyed by exactly that string, else the
    rule keyed "Others". A category that is not a string equals no key. *)
Definition resolve_rule (rules_dict : gmap string AuditRule) (cat : pyval)
  : option AuditRule :=
  match cat with
  | PyStr c =>
      match rules_dict !! c with
      | Some rule => Some rule
      | None => rules_dict !! "Others"
      end
  | _ => rules_dict !! "Others"
  end.

Definition item_restricted (rules_dict : gmap string AuditRule) (li : LineItem) : bool :=
  match resolve_rule rules_dict (item_category li) with
  | Some rule => is_restricted rule
  | None => false
  end.

Definition item_exceeds (rules_dict : gmap string AuditRule) (li : LineItem) : bool :=
  match resolve_rule rules_dict (item_category li) with
  | Some rule => PyFloat.gt (item_amount li) (max_limit rule)
  | None => false
  end.

Section Vocabulary.
Context {B : Builtins}.

(** The line item an element of [items] stands for: a dictionary whose
    category can be a key and whose amount [float] accepts; absent keys
    take the defaults of the three [item.get] calls. *)
Definition read_item (item : pyval) : option LineItem :=
  match item with
  | PyDict d =>
      let cat := default (PyStr "Others") (dict_lookup d "category") in
      match py_float (default (PyInt 0) (dict_lookup d "amount")) with
      | Return amount =>
          if hashable cat then
            Some {| item_name := default (PyStr "") (dict_lookup d "name");
                    item_category := cat;
                    item_amount := amount |}
          else None
      | Raise _ => None
      end
  | _ => None
  end.

(** The violations one line item contributes. *)
Definition item_violations (rules_dict : gmap string AuditRule) (li : LineItem)
  : list Violation :=
  if item_restricted rules_dict li then
    [restricted_violation (item_name li) (item_category li)]
  else if item_exceeds rules_dict li then
    match resolve_rule rules_dict (item_category li) with
    | Some rule => [amount_violation (item_name li) (item_category li) (item_amount li) rule]
    | None => []
    end
  else [].

(** The state after one line item. *)
Definition after_item (rd : gmap string AuditRule) (li : LineItem) (st : audit_state)
  : audit_state :=
  {| st_violations := st_violations st ++ item_violations rd li;
     restricted_items :=
       restricted_items st ++ (if item_restricted rd li then [item_name li] else []);
     amount_violations :=
       amount_violations st
       ++ (if (negb (item_restricted rd li) && item_exceeds rd li)%bool
           then [item_name li] else []) |}.

(** The results the evaluation paths produce: the orchestrator (category
    audit, keyword fallback, processing error) and the policy evaluator,
    alone or behind [perform_basic_audit]. *)
Inductive produced : AuditResult -> Prop :=
| produced_by_perform_audit groq_response json_data db :
    produced (perform_audit groq_response json_data db)
| produced_by_policies invoice_data policies result :
    validate_against_policies invoice_data policies = Return result ->
    produced result
| produced_by_basic_audit groq_response policies result :
    perform_basic_audit groq_response policies = Return result ->
    produced result.

(** The amount a pattern yields on a text: group 1 of its match, commas
    removed, when [float] accepts it. *)
Definition amount_candidate (text pattern : string) : option float :=
  match re_search pattern text with
  | Some g => float_of_str (PyString.remove_char "," g)
  | None => None
  end.

End Vocabulary.

(** ** Sample data *)

(** The double quote, to write JSON text. *)
Definition dq : string := String (ascii_of_nat 34) EmptyString.
Definition quoted (s : string) : string := dq ++ s ++ dq.

(** [{"name": n, "category": c, "amount": a}] as text, [a] given as text. *)
Definition item_text (n c a : string) : string :=
  "{" ++ quoted "name" ++ ": " ++ quoted n ++ ", " ++ quoted "category" ++ ": " ++ quoted c
  ++ ", " ++ quoted "amount" ++ ": " ++ a ++ "}".

(** [{"items": [...], "total_amount": t}] as text. *)
Definition invoice_text (items : list string) (t : string) : string :=
  "{" ++ quoted "items" ++ ": [" ++ PyString.join ", " items ++ "], "
  ++ quoted "total_amount" ++ ": " ++ t ++ "}".

Definition item_value (n c : string) (a : pyval) : pyval :=
  PyDict [("name", PyStr n); ("category", PyStr c); ("amount", a)].

Definition invoice_value (items : list pyval) (t : pyval) : pyval :=
  PyDict [("items", PyList items); ("total_amount", t)].

(** The three invoices of [test_audit.py], one with another total, and one
    whose amount is the string "abc". *)
Definition approved_text : string :=
  invoice_text [item_text "Business Lunch" "Food" "800.0";
                item_text "Office Supplies" "Office Supplies" "1200.0"] "2000.0".
Definition approved_value : pyval :=
  invoice_value [item_value "Business Lunch" "Food" (PyFloat 800);
                 item_value "Office Supplies" "Office Supplies" (PyFloat 1200)] (PyFloat 2000).

Definition retotaled_text : string :=
  invoice_text [item_text "Business Lunch" "Food" "800.0";
                item_text "Office Supplies" "Office Supplies" "1200.0"] "999999.0".
Definition retotaled_value : pyval :=
  invoice_value [item_value "Business Lunch" "Food" (PyFloat 800);
                 item_value "Office Supplies" "Office Supplies" (PyFloat 1200)]
                (PyFloat 999999).

Definition restricted_text : string :=
  invoice_text [item_text "Wine Bottle" "Alcohol" "500.0";
                item_text "Business Lunch" "Food" "800.0"] "1300.0".
Definition restricted_value : pyval :=
  invoice_value [item_value "Wine Bottle" "Alcohol" (PyFloat 500);
                 item_value "Business Lunch" "Food" (PyFloat 800)] (PyFloat 1300).

Definition exceeded_text : string :=
  invoice_text [item_text "Expensive Dinner" "Food" "2000.0"] "2000.0".
Definition exceeded_value : pyval :=
  invoice_value [item_value "Expensive Dinner" "Food" (PyFloat 2000)] (PyFloat 2000).

Definition unparsable_text : string :=
  invoice_text [item_text "Taxi" "Travel" (quoted "abc")] "0".
Definition unparsable_value : pyval :=
  invoice_value [item_value "Taxi" "Travel" (PyStr "abc")] (PyInt 0).

Definition zero_amount_text : string :=
  invoice_text [item_text "Taxi" "Travel" "0"] "0".
Definition zero_amount_value : pyval :=
  invoice_value [item_value "Taxi" "Travel" (PyInt 0)] (PyInt 0).

(** The first response of [test_image_audit.py]. *)
Definition whiskey_response : string :=
  "This invoice shows a purchase of whiskey bottle from ABC Liquor Store for $45.99. "
  ++ "The receipt includes tax and shows total amount due.".

(** A text whose first amount pattern matches a lone comma. *)
Definition comma_response : string := "total: , then $45.99".

Fixpoint table_lookup {A} (t : list (string * A)) (k : string) : option A :=
  match t with
  | [] => None
  | (k', v) :: t' => if String.eqb k' k then Some v else table_lookup t' k
  end.

(** The library's answers on the sample data; outside the tables the sample
    library refuses the text, finds no match. *)
Definition sample_json : list (string * pyval) := [
  (approved_text, approved_value);
  (retotaled_text, retotaled_value);
  (restricted_text, restricted_value);
  (exceeded_text, exceeded_value);
  (unparsable_text, unparsable_value);
  (zero_amount_text, zero_amount_value);
  ("[]", PyList [])
].

#[warnings="-inexact-float"]
Definition sample_floats : list (string * float) :=
  [("45.99", 45.99%float); ("1234.50", 1234.5%float)].

(** Pattern, text and group 1 of the leftmost match. *)
Definition sample_searches : list (string * string * string) := [
  ("(?:total|amount|sum)\s*:?\s*\$?([0-9,]+\.?[0-9]*)", comma_response, ",");
  ("\$([0-9,]+\.?[0-9]*)", comma_response, "45.99")
].

Fixpoint search_lookup (t : list (string * string * string)) (p s : string) : option string :=
  match t with
  | [] => None
  | (p', s', g) :: t' =>
      if (String.eqb p' p && String.eqb s' s)%bool then Some g else search_lookup t' p s
  end.

Definition sample_builtins : Builtins := {|
  json_loads s :=
    match table_lookup sample_json s with
    | Some v => Return v
    | None => raise JSONDecodeError "Expecting value: line 1 column 1 (char 0)"
    end;
  float_of_str s := table_lookup sample_floats s;
  int_of_str s := if String.eqb s "365" then Some 365 else None;
  re_search p s := search_lookup sample_searches p s;
  re_match p s := Return false;
  py_repr v :=
    match v with
    | PyStr s => "'" ++ s ++ "'"
    | PyFloat x =>
        if PrimFloat.eqb x 2000 then "2000.0"
        else if PrimFloat.eqb x 1500 then "1500.0"
        else "<float>"
    | _ => "<" ++ type_name v ++ ">"
    end;
  today := 740000
|}.

(** A policy of the kind the default "Alcohol Content Warning" is, with the
    keywords "alcohol,beer". *)
Definition alcohol_beer_policy : AuditPolicy :=
  {| rule_name := "Alcohol Content Warning";
     rule_type := "content_warning";
     field_name := "content";
     condition := "contains_keywords";
     expected_value := Some "alcohol,beer";
     severity := Some "warning";
     is_active := true |}.

Definition amount_required_policy : AuditPolicy :=
  {| rule_name := "Amount Required";
     rule_type := "required_field";
     field_name := "amount";
     condition := "exists";
     expected_value := None;
     severity := Some "medium";
     is_active := true |}.

Definition date_required_policy : AuditPolicy :=
  {| rule_name := "Date Required";
     rule_type := "required_field";
     field_name := "date";
     condition := "exists";
     expected_value := None;
     severity := Some "medium";
     is_active := true |}.

Definition vendor_required_policy : AuditPolicy :=
  {| rule_name := "Vendor Name Required";
     rule_type := "required_field";
     field_name := "vendor_name";
     condition := "exists";
     expected_value := None;
     severity := Some "medium";
     is_active := true |}.

(** ** The rest of the module and its callers *)

(** [create_default_audit_rules], on the rows of the [audit_rules] table:
    the eight rules are added, in order, only to an empty table. The
    message it prints is left out. *)
Definition create_default_audit_rules (table : list AuditRule) : list AuditRule :=
  let existing_count := len table in
  if existing_count =? 0 then (table ++ default_rules)%list else table.

(** One entry of [default_policies] after the loop that gives every entry
    without a severity the severity "medium", as the [AuditPolicy]
    constructor receives it. The entries carry no [is_active]: [active] is
    the default of that column. *)
Definition seed_policy (active : bool) (name type field cond : string)
  (expected : option string) (given_severity : option string) : AuditPolicy :=
  {| rule_name := name;
     rule_type := type;
     field_name := field;
     condition := cond;
     expected_value := expected;
     severity := Some (default "medium" given_severity);
     is_active := active |}.

Definition default_policies (active : bool) : list AuditPolicy := [
  seed_policy active "Invoice Number Required" "required_field" "invoice_number" "exists"
    None None;
  seed_policy active "Amount Required" "required_field" "amount" "exists" None None;
  seed_policy active "Date Required" "required_field" "date" "exists" None None;
  seed_policy active "Vendor Name Required" "required_field" "vendor_name" "exists" None None;
  seed_policy active "Maximum Amount Limit" "amount_limit" "amount" "max_value"
    (Some "10000") None;
  seed_policy active "Minimum Amount Limit" "amount_limit" "amount" "min_value"
    (Some "1") None;
  seed_policy active "Invoice Number Format" "format_check" "invoice_number" "format_match"
    (Some "^[A-Z0-9-]+$") None;
  seed_policy active "Date Range Check" "date_range" "date" "within_days"
    (Some "365") (Some "medium");
  seed_policy active "Alcohol Content Warning" "content_warning" "content" "contains_keywords"
    (Some ("alcohol,beer,wine,liquor,vodka,whiskey,rum,gin,champagne,cocktail,bar,pub,"
           ++ "brewery,distillery"))
    (Some "warning");
  seed_policy active "Entertainment Content Warning" "content_warning" "content"
    "contains_keywords"
    (Some ("party,entertainment,club,nightclub,casino,gambling,strip club,"
           ++ "adult entertainment,massage,spa"))
    (Some "warning");
  seed_policy active "High-Risk Vendor Warning" "content_warning" "content"
    "contains_keywords"
    (Some "cash only,no receipt,under table,off books,personal expense,gift,donation")
    (Some "high");
  seed_policy active "Luxury Items Warning" "content_warning" "content" "contains_keywords"
    (Some "jewelry,luxury,designer,rolex,gucci,louis vuitton,expensive watch,diamond,gold")
    (Some "warning")
].

(** [create_default_audit_policies], on the rows of the [audit_policies] table. *)
Definition create_default_audit_policies (active : bool) (table : list AuditPolicy)
  : list AuditPolicy :=
  let existing_count := len table in
  if existing_count =? 0 then (table ++ default_policies active)%list else table.

(** [len(s.split())]: the number of maximal runs of characters that are not
    white space. *)
Fixpoint word_count_from (in_word : bool) (s : string) : nat :=
  match s with
  | EmptyString => 0
  | String c s' =>
      if PyString.is_space c then word_count_from false s'
      else ((if in_word then 0 else 1) + word_count_from true s')%nat
  end.

Definition word_count (s : string) : nat := word_count_from false s.

Module BillFormat.

Definition bill_keywords : list string :=
  ["invoice"; "bill"; "receipt"; "statement"; "charge"].
Definition business_indicators : list string :=
  ["company"; "business"; "corp"; "inc"; "ltd"; "llc"; "store"; "shop"].
Definition amount_indicators : list string :=
  ["total"; "amount"; "due"; "balance"; "$"; "price"; "cost"; "subtotal"].
Definition date_indicators : list string := ["date"; "issued"; "billed"].
Definition structure_indicators : list string :=
  ["subtotal"; "tax"; "total"; "quantity"; "qty"; "item"; "description"].

(** [sum(1 for indicator in structure_indicators if indicator in content)] *)
Definition structure_score (content : string) : Z :=
  len (PyString.found_in structure_indicators content).

End BillFormat.

(** [validate_bill_format]: the verdict and its message. *)
Definition validate_bill_format (groq_response : string) : bool * string :=
  let content := PyString.lower groq_response in
  let has_bill_keyword := PyString.any_in BillFormat.bill_keywords content in
  if negb has_bill_keyword then
    (false, "Document does not appear to be a bill or invoice")
  else
    let has_business_info := PyString.any_in BillFormat.business_indicators content in
    if negb has_business_info then
      (false, "Document lacks proper business/vendor information")
    else
      let has_amount_info := PyString.any_in BillFormat.amount_indicators content in
      if negb has_amount_info then
        (false, "Document lacks pricing or amount information")
      else
        let has_date_info := PyString.any_in BillFormat.date_indicators content in
        if negb has_date_info then
          (false, "Document lacks date information")
        else
          let structure_score := BillFormat.structure_score content in
          if structure_score <? 2 then
            (false, "Document lacks proper bill structure (items, totals, etc.)")
          else if (word_count content <? 20)%nat then
            (false, "Document content is too brief to be a proper bill")
          else (true, "Document format validated as proper bill/invoice").

(** [item[k]] on a dictionary: [KeyError], whose text is the quoted key,
    when the key is absent. No handler of the module names [KeyError]. *)
Definition py_getitem (o : pyval) (k : string) : res pyval :=
  match o with
  | PyDict d =>
      match dict_lookup d k with
      | Some v => Return v
      | None => raise OtherException ("'" ++ k ++ "'")
      end
  | _ => raise TypeError ("'" ++ type_name o ++ "' object is not subscriptable")
  end.

Section PerformAuditWithMock.
Context {B : Builtins}.

(** The body of [for item in items] in [perform_audit_with_mock]: the
    category is looked up as it is, with no second lookup under "Others". *)
Definition mock_item (rules_dict : gmap string AuditRule) (item : pyval)
  (violations : list Violation) : res (list Violation) :=
  category ← py_get item "category" (PyStr "Others");
  rule ← rules_get rules_dict category;
  match rule with
  | Some rule =>
      if is_restricted rule then
        name ← py_getitem item "name";
        Return (violations ++ [restricted_violation name category])%list
      else Return violations
  | None => Return violations
  end.

Definition mock_result (violations : list Violation) : AuditResult :=
  let any_violation := match violations with [] => false | _ => true end in
  {| is_compliant := len violations =? 0;
     total_violations := len violations;
     violations := violations;
     compliance_score := NInt (if any_violation then 0 else 100);
     summary := if any_violation then "Cannot approve - restricted items found"
                else "All items approved";
     approval_status := Some (if any_violation then "rejected" else "approved");
     status_color := Some (if any_violation then "red" else "green") |}.

Definition perform_audit_with_mock (mock_data : pyval) (db : list AuditRule)
  : res AuditResult :=
  items ← py_get mock_data "items" (PyList []);
  let audit_rules := db in
  let rules_dict := rules_dict_of audit_rules in
  item_list ← py_iter items;
  violations ← for_each (mock_item rules_dict) item_list [];
  Return (mock_result violations).

End PerformAuditWithMock.

(** ** [upload_document] of [main.py], from the model's answer to the save *)

Module Main.

Definition invoice_keywords : list string :=
  ["invoice"; "bill"; "receipt"; "total"; "amount"; "price"; "cost"; "payment"].

(** How the request ends: an [HTTPException], or the document goes on to be
    saved with its audit result. *)
Inductive upload_outcome : Type :=
| HttpError (status_code : Z) (detail : string)
| SaveDocument (cloudinary_url : string) (audit_result : AuditResult).

End Main.

Section UploadDocument.
Context {B : Builtins}.

(** The part of [upload_document] between the answer of the model and the
    save: the invoice check, the upload ([upload] is what
    [upload_to_cloudinary] gives), the audit, and the rejection. An
    exception of the upload reaches the handler that answers 500. *)
Definition upload_document_audit (upload : res string) (groq_response json_data : string)
  (db : list AuditRule) : Main.upload_outcome :=
  let content := PyString.lower groq_response in
  let has_invoice_format := PyString.any_in Main.invoice_keywords content in
  if negb has_invoice_format then
    Main.HttpError 400
      "Document rejected: Only invoice/bill documents are accepted for processing."
  else
    match upload with
    | Raise e => Main.HttpError 500 ("Internal server error: " ++ exn_text e)
    | Return cloudinary_url =>
        let audit_result := perform_audit groq_response json_data db in
        if match approval_status audit_result with
           | Some status => String.eqb status "rejected"
           | None => false
           end
        then Main.HttpError 400
               "Document rejected: Restricted items found. Document cannot be approved."
        else Main.SaveDocument cloudinary_url audit_result
    end.

End UploadDocument.

(** What a violation found by one policy looks like. *)
Definition violation_of (policy : AuditPolicy) (v : Violation) : Prop :=
  v_rule_name v = rule_name policy
  /\ v_field_name v = field_name policy
  /\ v_severity v = default "medium" (severity policy)
  /\ flagged_items v = None
  /\ ((rule_type policy = "required_field" /\ violation_type v = "missing_field")
      \/ (rule_type policy = "amount_limit"
          /\ (violation_type v = "amount_exceeded"
              \/ violation_type v = "amount_below_minimum"))
      \/ (rule_type policy = "format_check" /\ violation_type v = "format_mismatch")
      \/ (rule_type policy = "date_range" /\ violation_type v = "date_out_of_range")).

Section CategoryAudit.
Context {B : Builtins}.

(** The result of the category audit in terms of the line items. *)
Definition category_audit (rd : gmap string AuditRule) (lis : list LineItem) : AuditResult :=
  let any_restricted := existsb (item_restricted rd) lis in
  let any_exceeds := existsb (item_exceeds rd) lis in
  {| is_compliant := negb (any_restricted || any_exceeds);
     total_violations := len (flat_map (item_violations rd) lis);
     violations := flat_map (item_violations rd) lis;
     compliance_score := NInt (if any_restricted then 0 else if any_exceeds then 50 else 100);
     summary :=
       if any_restricted then
         "Cannot approve - " ++ PyString.of_Z (len (List.filter (item_restricted rd) lis))
         ++ " restricted items found"
       else if any_exceeds then
         "Warning - " ++ PyString.of_Z (len (List.filter (item_exceeds rd) lis))
         ++ " items exceed category limits"
       else "All items approved - No policy violations found";
     approval_status :=
       Some (if any_restricted then "rejected" else if any_exceeds then "warning"
             else "approved");
     status_color :=
       Some (if any_restricted then "red" else if any_exceeds then "yellow" else "green") |}.

End CategoryAudit.

(** More sample invoices: the items of [restricted_value] in the other
    order, a dinner over its limit followed by a bottle of wine, and the
    empty object. *)
Definition swapped_text : string :=
  invoice_text [item_text "Business Lunch" "Food" "800.0";
                item_text "Wine Bottle" "Alcohol" "500.0"] "1300.0".
Definition swapped_value : pyval :=
  invoice_value [item_value "Business Lunch" "Food" (PyFloat 800);
                 item_value "Wine Bottle" "Alcohol" (PyFloat 500)] (PyFloat 1300).

Definition dinner_and_wine_text : string :=
  invoice_text [item_text "Expensive Dinner" "Food" "2000.0";
                item_text "Wine Bottle" "Alcohol" "500.0"] "2500.0".
Definition dinner_and_wine_value : pyval :=
  invoice_value [item_value "Expensive Dinner" "Food" (PyFloat 2000);
                 item_value "Wine Bottle" "Alcohol" (PyFloat 500)] (PyFloat 2500).

Definition more_sample_json : list (string * pyval) := [
  (swapped_text, swapped_value);
  (dinner_and_wine_text, dinner_and_wine_value);
  ("{}", PyDict [])
].

(** The sample library with the answers of [json.loads] on these texts too. *)
Definition wider_builtins : Builtins := {|
  json_loads s :=
    match table_lookup more_sample_json s with
    | Some v => Return v
    | None => @json_loads sample_builtins s
    end;
  float_of_str := @float_of_str sample_builtins;
  int_of_str := @int_of_str sample_builtins;
  re_search := @re_search sample_builtins;
  re_match := @re_match sample_builtins;
  py_repr := @py_repr sample_builtins;
  today := @today sample_builtins
|}.

Definition minimum_amount_policy : AuditPolicy :=
  seed_policy true "Minimum Amount Limit" "amount_limit" "amount" "min_value" (Some "1") None.

(** The line items of [restricted_value]. *)
Definition restricted_line_items : list LineItem := [
  {| item_name := PyStr "Wine Bottle"; item_category := PyStr "Alcohol";
     item_amount := 500%float |};
  {| item_name := PyStr "Business Lunch"; item_category := PyStr "Food";
     item_amount := 800%float |}
].

Definition sample_policies : list AuditPolicy :=
  [amount_required_policy; date_required_policy; vendor_required_policy].

(** * Properties *)

(** Case analysis on the computation a [bind] in hypothesis [H] runs first. *)
Ltac bind_inv H :=
  repeat match type of H with
    | context [mbind _ ?m] =>
        let E := fresh "E" in
        destruct m eqn:E; cbn [mbind res_bind] in H; try discriminate H
    end.

Section Properties.
Context {B : Builtins}.

(** *** Exceptions of the loop body *)

Lemma py_get_raise o k dflt e :
  py_get o k dflt = Raise e -> exn_cls e = AttributeError.
Proof. destruct o; cbn; intros H; inversion H; reflexivity. Qed.

Lemma py_iter_raise o e : py_iter o = Raise e -> exn_cls e = TypeError.
Proof. destruct o; cbn; intros H; inversion H; reflexivity. Qed.

Lemma of_int_raise n e : PyFloat.of_int n = Raise e -> exn_cls e = OverflowError.
Proof.
  unfold PyFloat.of_int.
  destruct (binary_normalize prec emax n 0 false); intros H; inversion H; reflexivity.
Qed.

Lemma py_float_raise v e : py_float v = Raise e -> is_json_decode_error e = false.
Proof.
  destruct v; cbn; intros H; try (inversion H; reflexivity).
  - apply of_int_raise in H. unfold is_json_decode_error. rewrite H. reflexivity.
  - destruct (float_of_str s); inversion H; reflexivity.
Qed.

Lemma rules_get_raise rd key e : rules_get rd key = Raise e -> exn_cls e = TypeError.
Proof. destruct key; cbn; intros H; inversion H; reflexivity. Qed.

Lemma class_not_json e c :
  exn_cls e = c -> c <> JSONDecodeError -> is_json_decode_error e = false.
Proof. unfold is_json_decode_error. intros ->. destruct c; congruence. Qed.

Lemma audit_item_raise rd item st e :
  audit_item rd item st = Raise e -> is_json_decode_error e = false.
Proof.
  unfold audit_item. intros H.
  destruct (py_get item "name" (PyStr "")) eqn:E1; cbn [mbind res_bind] in H;
    [| inversion H; subst; eapply class_not_json; [eapply py_get_raise; eauto | discriminate]].
  destruct (py_get item "category" (PyStr "Others")) eqn:E2; cbn [mbind res_bind] in H;
    [| inversion H; subst; eapply class_not_json; [eapply py_get_raise; eauto | discriminate]].
  destruct (py_get item "amount" (PyInt 0)) eqn:E3; cbn [mbind res_bind] in H;
    [| inversion H; subst; eapply class_not_json; [eapply py_get_raise; eauto | discriminate]].
  destruct (py_float a1) eqn:E4; cbn [mbind res_bind] in H;
    [| inversion H; subst; eapply py_float_raise; eauto].
  destruct (rules_get rd a0) eqn:E5; cbn [mbind res_bind] in H;
    [| inversion H; subst; eapply class_not_json; [eapply rules_get_raise; eauto | discriminate]].
  destruct a3 as [rule|]; [| destruct (rd !! "Others") as [rule|]];
    try discriminate H;
    destruct (is_restricted rule); try discriminate H;
    destruct (PyFloat.gt a2 (max_limit rule)); discriminate H.
Qed.

Lemma for_each_audit_raise rd items st e :
  for_each (audit_item rd) items st = Raise e -> is_json_decode_error e = false.
Proof.
  revert st. induction items as [|item items IH]; intros st H; cbn in H.
  - discriminate H.
  - destruct (audit_item rd item st) eqn:E; cbn [mbind res_bind] in H.
    + eapply IH; eauto.
    + inversion H; subst. eapply audit_item_raise; eauto.
Qed.

(** The [try] block raises [JSONDecodeError] only out of [json.loads]. *)
Lemma perform_audit_try_raise groq_response json_data db e :
  perform_audit_try groq_response json_data db = Raise e ->
  json_loads json_data = Raise e \/ is_json_decode_error e = false.
Proof.
  unfold perform_audit_try. intros H.
  destruct (json_loads json_data) as [invoice_data|e0] eqn:E0; cbn [mbind res_bind] in H;
    [| left; congruence].
  right.
  destruct (py_get invoice_data "items" (PyList [])) eqn:E1; cbn [mbind res_bind] in H;
    [| inversion H; subst; eapply class_not_json; [eapply py_get_raise; eauto | discriminate]].
  destruct (py_get invoice_data "total_amount" (PyInt 0)) eqn:E2; cbn [mbind res_bind] in H;
    [| inversion H; subst; eapply class_not_json; [eapply py_get_raise; eauto | discriminate]].
  destruct (py_iter a) eqn:E3; cbn [mbind res_bind] in H;
    [| inversion H; subst; eapply class_not_json; [eapply py_iter_raise; eauto | discriminate]].
  destruct (for_each (audit_item (rules_dict_of db)) a1 initial_state) eqn:E4;
    cbn [mbind res_bind] in H; [discriminate H |].
  inversion H; subst. eapply for_each_audit_raise; eauto.
Qed.

Lemma perform_audit_try_return groq_response json_data db result :
  perform_audit_try groq_response json_data db = Return result ->
  exists st, result = decide_result st.
Proof.
  unfold perform_audit_try. intros H. bind_inv H.
  inversion H. eexists; reflexivity.
Qed.

(** How a parsed dictionary is audited: only its [items] entry is used. *)
Lemma perform_audit_try_dict groq_response json_data db d :
  json_loads json_data = Return (PyDict d) ->
  perform_audit_try groq_response json_data db =
    (item_list ← py_iter (default (PyList []) (dict_lookup d "items"));
     st ← for_each (audit_item (rules_dict_of db)) item_list initial_state;
     Return (decide_result st)).
Proof. intros H. unfold perform_audit_try. rewrite H. reflexivity. Qed.

Lemma perform_audit_json_error groq_response json_data db e :
  json_loads json_data = Raise e -> exn_cls e = JSONDecodeError ->
  perform_audit groq_response json_data db = keyword_fallback groq_response.
Proof.
  intros H Hc. unfold perform_audit, perform_audit_try. rewrite H. cbn [mbind res_bind].
  unfold is_json_decode_error. rewrite Hc. reflexivity.
Qed.

Lemma decide_result_shape st :
  total_violations (decide_result st) = len (violations (decide_result st))
  /\ forall status, approval_status (decide_result st) = Some status ->
                    is_compliant (decide_result st) = String.eqb status "approved".
Proof.
  unfold decide_result.
  destruct (0 <? len (restricted_items st)); [| destruct (0 <? len (amount_violations st))];
    cbn; (split; [reflexivity | intros status H; inversion H; reflexivity]).
Qed.

Lemma keyword_fallback_shape groq_response :
  total_violations (keyword_fallback groq_response)
  = len (violations (keyword_fallback groq_response))
  /\ forall status, approval_status (keyword_fallback groq_response) = Some status ->
                    is_compliant (keyword_fallback groq_response)
                    = String.eqb status "approved".
Proof.
  unfold keyword_fallback.
  destruct (negb (PyString.any_in invoice_keywords (PyString.lower groq_response)));
    [| destruct (PyString.found_in alcohol_keywords (PyString.lower groq_response))];
    cbn; (split; [reflexivity | intros status H; inversion H; reflexivity]).
Qed.

Lemma validate_return invoice_data policies result :
  validate_against_policies invoice_data policies = Return result ->
  exists vs,
    for_each (policy_step invoice_data) policies [] = Return vs
    /\ result = score_result (len (List.filter is_active policies)) vs.
Proof.
  unfold validate_against_policies. intros H. bind_inv H.
  inversion H. eexists; split; reflexivity.
Qed.

(** *** The orchestrator *)

(** C3. [perform_audit] is a total function: it returns an [AuditResult]
    for every raw text, JSON text and rule list. When its [try] block
    fails with an exception other than [JSONDecodeError], the result is the
    degraded one: not compliant, exactly one violation, of type
    [processing_error] and severity [high], whose message carries the text
    of the exception, score 0, and neither an approval status nor a
    status colour. *)
Theorem perform_audit_degraded_result groq_response json_data db e :
  perform_audit_try groq_response json_data db = Raise e ->
  exn_cls e <> JSONDecodeError ->
  let result := perform_audit groq_response json_data db in
  is_compliant result = false
  /\ total_violations result = 1
  /\ (exists v,
        violations result = [v]
        /\ violation_type v = "processing_error"
        /\ v_severity v = "high"
        /\ message v = "Error processing audit: " ++ exn_text e)
  /\ compliance_score result = NInt 0
  /\ approval_status result = None
  /\ status_color result = None.
Proof.
  intros Htry Hcls result. subst result. unfold perform_audit. rewrite Htry.
  rewrite (class_not_json e (exn_cls e) eq_refl Hcls). cbn.
  repeat split. eexists. repeat split.
Qed.

(** C4. When [json.loads] rejects the JSON text, the decision comes from
    the lowered raw text alone: without any invoice keyword the document
    is approved with score 100 and no violation; with an invoice keyword
    and at least one alcohol keyword it is rejected with score 0 and
    exactly one [restricted_item] violation whose [flagged_items] are all
    the alcohol keywords found ("whiskey" among them when the text
    contains it); with an invoice keyword and no alcohol keyword it is
    approved with score 100 and no violation. *)
Theorem keyword_fallback_decision groq_response json_data db e :
  json_loads json_data = Raise e ->
  exn_cls e = JSONDecodeError ->
  let content := PyString.lower groq_response in
  let result := perform_audit groq_response json_data db in
  (PyString.any_in invoice_keywords content = false ->
     approval_status result = Some "approved"
     /\ compliance_score result = NInt 100
     /\ violations result = [] /\ total_violations result = 0)
  /\ (PyString.any_in invoice_keywords content = true ->
      PyString.any_in alcohol_keywords content = true ->
        approval_status result = Some "rejected"
        /\ compliance_score result = NInt 0
        /\ total_violations result = 1
        /\ exists v flagged,
             violations result = [v]
             /\ violation_type v = "restricted_item"
             /\ flagged_items v = Some flagged
             /\ flagged = map PyStr (PyString.found_in alcohol_keywords content)
             /\ (forall kw, In kw alcohol_keywords ->
                            PyString.contains kw content = true -> In (PyStr kw) flagged)
             /\ (PyString.contains "whiskey" content = true -> In (PyStr "whiskey") flagged))
  /\ (PyString.any_in invoice_keywords content = true ->
      PyString.any_in alcohol_keywords content = false ->
        approval_status result = Some "approved"
        /\ compliance_score result = NInt 100
        /\ violations result = [] /\ total_violations result = 0).
Proof.
  intros Hload Hcls content result. subst result.
  rewrite (perform_audit_json_error _ _ _ _ Hload Hcls).
  unfold keyword_fallback. fold content.
  assert (Hall : forall kw, In kw alcohol_keywords ->
                            PyString.contains kw content = true ->
                            In (PyStr kw) (map PyStr (PyString.found_in alcohol_keywords content))).
  { intros kw Hin Hc. apply in_map. unfold PyString.found_in.
    apply filter_In. split; assumption. }
  assert (Hnone : PyString.any_in alcohol_keywords content = false ->
                  PyString.found_in alcohol_keywords content = []).
  { unfold PyString.any_in, PyString.found_in. intros Hex.
    destruct (List.filter _ alcohol_keywords) as [|kw l] eqn:Ef; [reflexivity |].
    assert (Hin : In kw (List.filter (fun k => PyString.contains k content) alcohol_keywords))
      by (rewrite Ef; left; reflexivity).
    apply filter_In in Hin. destruct Hin as [Hin Hc].
    assert (Htrue : existsb (fun k => PyString.contains k content) alcohol_keywords = true)
      by (apply existsb_exists; eauto).
    congruence. }
  assert (Hsome : PyString.any_in alcohol_keywords content = true ->
                  PyString.found_in alcohol_keywords content <> []).
  { unfold PyString.any_in, PyString.found_in. intros Hex Hnil.
    apply existsb_exists in Hex. destruct Hex as [kw [Hin Hc]].
    assert (Hf : In kw (List.filter (fun k => PyString.contains k content) alcohol_keywords))
      by (apply filter_In; split; assumption).
    rewrite Hnil in Hf. destruct Hf. }
  split; [| split].
  - intros ->. cbn. repeat split.
  - intros -> Halc. cbn [negb].
    specialize (Hsome Halc).
    destruct (PyString.found_in alcohol_keywords content) as [|kw l] eqn:Ef; [congruence |].
    cbn. repeat split. eexists. eexists. repeat split.
    + intros kw0 Hin Hc. apply Hall; assumption.
    + intros Hw. apply Hall; [cbn; tauto | exact Hw].
  - intros -> Halc. cbn [negb]. rewrite (Hnone Halc). cbn. repeat split.
Qed.

(** C10. Two JSON texts that parse to dictionaries with the same [items]
    entry give the same result, for the same raw text and rules: whatever
    else the dictionaries hold, [total_amount] included, has no effect. *)
Theorem total_amount_is_ignored groq_response db json_data1 json_data2 d1 d2 :
  json_loads json_data1 = Return (PyDict d1) ->
  json_loads json_data2 = Return (PyDict d2) ->
  dict_lookup d1 "items" = dict_lookup d2 "items" ->
  perform_audit groq_response json_data1 db = perform_audit groq_response json_data2 db.
Proof.
  intros H1 H2 Hitems. unfold perform_audit.
  rewrite (perform_audit_try_dict _ _ _ _ H1), (perform_audit_try_dict _ _ _ _ H2).
  rewrite Hitems. reflexivity.
Qed.

(** *** Invariants of every result *)

Lemma produced_cases result :
  produced result ->
  (exists st, result = decide_result st)
  \/ (exists groq_response, result = keyword_fallback groq_response)
  \/ (exists e, result = processing_error e)
  \/ (exists total_rules vs, result = score_result total_rules vs).
Proof.
  intros [groq_response json_data db | invoice_data policies r H
         | groq_response policies r H].
  - unfold perform_audit.
    destruct (perform_audit_try groq_response json_data db) as [r|e] eqn:E.
    + left. eapply perform_audit_try_return; eauto.
    + destruct (is_json_decode_error e); right; [left | right; left]; eauto.
  - apply validate_return in H. destruct H as [vs [_ ->]]. do 3 right. eauto.
  - apply validate_return in H. destruct H as [vs [_ ->]]. do 3 right. eauto.
Qed.

(** C6. Every result an evaluation path produces (category audit, keyword
    fallback, processing error, policy evaluator) has [total_violations]
    equal to the length of its [violations]. *)
Theorem total_violations_is_length result :
  produced result ->
  total_violations result = len (violations result).
Proof.
  intros H. apply produced_cases in H.
  destruct H as [[st ->] | [[groq_response ->] | [[e ->] | [total_rules [vs ->]]]]].
  - apply decide_result_shape.
  - apply keyword_fallback_shape.
  - reflexivity.
  - reflexivity.
Qed.

(** C7. Every result an evaluation path produces with an approval status
    set has [is_compliant] true exactly when that status is "approved". *)
Theorem compliant_iff_approved result status :
  produced result ->
  approval_status result = Some status ->
  is_compliant result = String.eqb status "approved".
Proof.
  intros H. apply produced_cases in H.
  destruct H as [[st ->] | [[groq_response ->] | [[e ->] | [total_rules [vs ->]]]]].
  - apply decide_result_shape.
  - apply keyword_fallback_shape.
  - cbn. discriminate.
  - cbn. discriminate.
Qed.

(** *** The category audit *)

Lemma rules_get_resolve rd cat :
  hashable cat = true ->
  exists found,
    rules_get rd cat = Return found
    /\ match found with Some rule => Some rule | None => rd !! "Others" end
       = resolve_rule rd cat.
Proof.
  destruct cat; cbn; intros H; try discriminate H; eexists; split; reflexivity.
Qed.

Lemma audit_item_read rd item li st :
  read_item item = Some li ->
  audit_item rd item st = Return (after_item rd li st).
Proof.
  unfold read_item. destruct item as [| | | | | |d]; try discriminate.
  destruct (py_float (default (PyInt 0) (dict_lookup d "amount"))) as [amount|] eqn:Ea;
    [| discriminate].
  destruct (hashable (default (PyStr "Others") (dict_lookup d "category"))) eqn:Eh;
    [| discriminate].
  intros H. inversion H as [Hli]. clear H. subst li.
  destruct (rules_get_resolve rd _ Eh) as [found [Hget Hres]].
  unfold audit_item, py_get. cbn [mbind res_bind].
  rewrite Ea. cbn [mbind res_bind]. rewrite Hget. cbn [mbind res_bind]. rewrite Hres.
  unfold after_item, item_violations, item_restricted, item_exceeds.
  cbn [item_name item_category item_amount].
  destruct (resolve_rule rd (default (PyStr "Others") (dict_lookup d "category")))
    as [rule|].
  - destruct (is_restricted rule); cbn [negb andb]; [rewrite app_nil_r; reflexivity |].
    destruct (PyFloat.gt amount (max_limit rule)).
    + rewrite app_nil_r. reflexivity.
    + rewrite !app_nil_r. destruct st; reflexivity.
  - cbn [negb andb]. rewrite !app_nil_r. destruct st; reflexivity.
Qed.

Lemma for_each_audit_read rd items lis st :
  Forall2 (fun item li => read_item item = Some li) items lis ->
  for_each (audit_item rd) items st
  = Return (fold_left (fun st li => after_item rd li st) lis st).
Proof.
  intros H. revert st. induction H as [|item li items lis Hread _ IH]; intros st.
  - reflexivity.
  - cbn. rewrite (audit_item_read _ _ _ _ Hread). cbn [mbind res_bind]. apply IH.
Qed.

Lemma fold_after_item rd lis st :
  let st' := fold_left (fun st li => after_item rd li st) lis st in
  st_violations st' = (st_violations st ++ flat_map (item_violations rd) lis)%list
  /\ restricted_items st'
     = (restricted_items st
        ++ flat_map (fun li => if item_restricted rd li then [item_name li] else []) lis)%list
  /\ amount_violations st'
     = (amount_violations st
        ++ flat_map (fun li => if (negb (item_restricted rd li) && item_exceeds rd li)%bool
                               then [item_name li] else []) lis)%list.
Proof.
  revert st. induction lis as [|li lis IH]; intros st; cbn.
  - rewrite !app_nil_r. repeat split.
  - destruct (IH (after_item rd li st)) as [H1 [H2 H3]]. cbn in H1, H2, H3.
    rewrite H1, H2, H3. cbn. rewrite <- !app_assoc. repeat split.
Qed.

Lemma some_flagged {A C} (f : A -> bool) (g : A -> C) (l : list A) :
  (0 <? len (flat_map (fun x => if f x then [g x] else []) l)) = existsb f l.
Proof.
  unfold len. induction l as [|x l IH]; cbn; [reflexivity |].
  destruct (f x); cbn.
  - reflexivity.
  - exact IH.
Qed.

Lemma existsb_unrestricted_exceeds rd lis :
  existsb (item_restricted rd) lis = false ->
  existsb (fun li => (negb (item_restricted rd li) && item_exceeds rd li)%bool) lis
  = existsb (item_exceeds rd) lis.
Proof.
  induction lis as [|li lis IH]; cbn; [reflexivity |].
  intros H. apply orb_false_iff in H. destruct H as [Hli Hrest].
  rewrite Hli, (IH Hrest). reflexivity.
Qed.

(** One line item contributes no violation, or a single one: a
    [restricted_item] when its rule is restricted, else an
    [amount_exceeded] when its amount is over the limit. *)
Lemma item_violations_cases rd li :
  match item_violations rd li with
  | [] => item_restricted rd li = false /\ item_exceeds rd li = false
  | [v] =>
      (violation_type v = "restricted_item" /\ item_restricted rd li = true)
      \/ (violation_type v = "amount_exceeded"
          /\ item_restricted rd li = false /\ item_exceeds rd li = true)
  | _ => False
  end.
Proof.
  unfold item_violations.
  destruct (item_restricted rd li) eqn:Er; [left; split; reflexivity |].
  destruct (item_exceeds rd li) eqn:Ee; [| split; reflexivity].
  unfold item_exceeds in Ee.
  destruct (resolve_rule rd (item_category li)); [| discriminate Ee].
  right. repeat split.
Qed.

(** C1. On the structured path (the JSON text parses to a dictionary whose
    [items] are line items), with each item's rule resolved by exact
    category match, else the rule keyed "Others": if some item's rule is
    restricted the result is rejected, red, score 0, whatever the other
    items are; else if some item's amount exceeds its rule's limit it is
    warning, yellow, score 50; else approved, green, score 100. The
    violations are those of the items in order, and no item contributes
    both a [restricted_item] and an [amount_exceeded] violation. *)
Theorem category_decision_rule groq_response json_data db d items lis :
  json_loads json_data = Return (PyDict d) ->
  default (PyList []) (dict_lookup d "items") = PyList items ->
  Forall2 (fun item li => read_item item = Some li) items lis ->
  let rd := rules_dict_of db in
  let result := perform_audit groq_response json_data db in
  (approval_status result, status_color result, compliance_score result)
  = (if existsb (item_restricted rd) lis then (Some "rejected", Some "red", NInt 0)
     else if existsb (item_exceeds rd) lis then (Some "warning", Some "yellow", NInt 50)
     else (Some "approved", Some "green", NInt 100))
  /\ violations result = flat_map (item_violations rd) lis
  /\ Forall (fun li =>
               match item_violations rd li with
               | [] => item_restricted rd li = false /\ item_exceeds rd li = false
               | [v] =>
                   (violation_type v = "restricted_item" /\ item_restricted rd li = true)
                   \/ (violation_type v = "amount_exceeded"
                       /\ item_restricted rd li = false /\ item_exceeds rd li = true)
               | _ => False
               end) lis.
Proof.
  intros Hload Hitems Hread rd result. subst result. unfold perform_audit.
  rewrite (perform_audit_try_dict _ _ _ _ Hload), Hitems. cbn [py_iter mbind res_bind].
  rewrite (for_each_audit_read _ _ _ _ Hread). cbn [mbind res_bind]. fold rd.
  destruct (fold_after_item rd lis initial_state) as [Hv [Hr Ha]].
  cbn in Hv, Hr, Ha.
  split; [| split].
  - unfold decide_result. rewrite Hr, Ha, !some_flagged.
    destruct (existsb (item_restricted rd) lis) eqn:Er; [reflexivity |].
    rewrite (existsb_unrestricted_exceeds _ _ Er).
    destruct (existsb (item_exceeds rd) lis); reflexivity.
  - unfold decide_result.
    destruct (0 <? len (restricted_items _)); [| destruct (0 <? len (amount_violations _))];
      exact Hv.
  - apply Forall_forall. intros li _. apply item_violations_cases.
Qed.

(** *** Amounts of line items *)

Lemma dict_lookup_set d k v k' :
  dict_lookup (dict_set d k v) k'
  = if String.eqb k k' then Some v else dict_lookup d k'.
Proof.
  induction d as [|[k0 v0] d IH]; cbn.
  - reflexivity.
  - destruct (String.eqb k0 k) eqn:E0; cbn.
    + apply String.eqb_eq in E0. subst k0. destruct (String.eqb k k'); reflexivity.
    + rewrite IH. destruct (String.eqb k0 k') eqn:E1; [| reflexivity].
      apply String.eqb_eq in E1. subst k0. rewrite String.eqb_sym in E0.
      rewrite E0. reflexivity.
Qed.

Lemma audit_item_bad_amount rd d a e st :
  dict_lookup d "amount" = Some a ->
  py_float a = Raise e ->
  audit_item rd (PyDict d) st = Raise e.
Proof.
  intros Hd Ha. unfold audit_item, py_get. cbn [mbind res_bind].
  rewrite Hd. change (default (PyInt 0) (Some a)) with a. rewrite Ha. reflexivity.
Qed.

Lemma for_each_audit_bad_amount rd items d a e st :
  In (PyDict d) items ->
  dict_lookup d "amount" = Some a ->
  py_float a = Raise e ->
  exists e', for_each (audit_item rd) items st = Raise e'.
Proof.
  intros Hin Hd Ha. revert st.
  induction items as [|item items IH]; intros st; [destruct Hin |].
  cbn. destruct Hin as [-> | Hin].
  - rewrite (audit_item_bad_amount _ _ _ _ _ Hd Ha). cbn [mbind res_bind]. eauto.
  - destruct (audit_item rd item st) as [st'|e0]; cbn [mbind res_bind]; [| eauto].
    apply IH. exact Hin.
Qed.

(** C5, as the code has it. An item without an [amount] key is audited as
    the same item with amount 0, and the audit goes on. An item whose
    [amount] is present and refused by [float] (an unparsable string,
    null, a list) stops the audit: the result is the degraded
    [processing_error] result, with no approval status. *)
Theorem absent_amount_is_zero_unparsable_degrades :
  (forall rd d st,
      dict_lookup d "amount" = None ->
      audit_item rd (PyDict d) st
      = audit_item rd (PyDict (dict_set d "amount" (PyInt 0))) st)
  /\ (forall groq_response json_data db d items di a e,
        json_loads json_data = Return (PyDict d) ->
        default (PyList []) (dict_lookup d "items") = PyList items ->
        In (PyDict di) items ->
        dict_lookup di "amount" = Some a ->
        py_float a = Raise e ->
        exists e',
          perform_audit groq_response json_data db = processing_error e'
          /\ approval_status (perform_audit groq_response json_data db) = None
          /\ map violation_type (violations (perform_audit groq_response json_data db))
             = ["processing_error"]).
Proof.
  split.
  - intros rd d st Hd. unfold audit_item, py_get. cbn [mbind res_bind].
    rewrite !dict_lookup_set, Hd. reflexivity.
  - intros groq_response json_data db d items di a e Hload Hitems Hin Hd Ha.
    destruct (for_each_audit_bad_amount (rules_dict_of db) items di a e initial_state
                Hin Hd Ha) as [e' He'].
    exists e'. unfold perform_audit.
    rewrite (perform_audit_try_dict _ _ _ _ Hload), Hitems. cbn [py_iter mbind res_bind].
    rewrite He'. cbn [mbind res_bind].
    rewrite (for_each_audit_raise _ _ _ _ He'). repeat split.
Qed.

(** *** The policy evaluator *)

(** C8. A result the policy evaluator returns has the score
    [round(max(0, (N - E) / N * 100), 2)], where [N] counts the active
    policies and [E] the violations of severity medium or high (a
    violation of severity warning is not counted), and the score 100 when
    no policy is active; it is compliant exactly when it has no violation;
    it sets neither an approval status nor a status colour. *)
Theorem policy_score invoice_data policies result :
  validate_against_policies invoice_data policies = Return result ->
  let N := len (List.filter is_active policies) in
  let E := len (List.filter
                  (fun v => (String.eqb (v_severity v) "medium"
                             || String.eqb (v_severity v) "high")%bool)
                  (violations result)) in
  compliance_score result
  = (if N =? 0 then NInt 100 else py_round2 (py_max0 (percent_of (N - E) N)))
  /\ is_compliant result = (len (violations result) =? 0)
  /\ approval_status result = None
  /\ status_color result = None.
Proof.
  intros H N E. apply validate_return in H. destruct H as [vs [_ ->]].
  subst E. fold N. cbn [score_result violations is_compliant approval_status status_color
                          compliance_score].
  repeat split.
  assert (HN : 0 <= N) by (unfold N, len; apply Nat2Z.is_nonneg).
  replace (List.filter is_error vs)
    with (List.filter
            (fun v => (String.eqb (v_severity v) "medium"
                       || String.eqb (v_severity v) "high")%bool) vs).
  - destruct (Z.ltb_spec 0 N) as [Hpos|Hzero]; destruct (Z.eqb_spec N 0) as [Heq|Hne];
      try reflexivity; exfalso; lia.
  - apply filter_ext. intros v. unfold is_error. cbn. rewrite orb_false_r. reflexivity.
Qed.

(** C2, where the code departs from it: a content-warning policy reads the
    text to scan from a name the function does not have, so the evaluator
    raises [NameError] instead of emitting a violation, whatever the
    fields. *)
Theorem content_warning_raises_name_error invoice_data :
  validate_against_policies invoice_data [alcohol_beer_policy]
  = Raise (Exn NameError "name 'groq_response' is not defined")
  /\ perform_basic_audit "Receipt: two BEER bottles, total 12" [alcohol_beer_policy]
     = Raise (Exn NameError "name 'groq_response' is not defined").
Proof. split; reflexivity. Qed.

(** *** The field extractor *)

Lemma dict_lookup_set_if_found d k v k' :
  dict_lookup (set_if_found d k v) k'
  = if String.eqb k k' then match v with Some x => Some x | None => dict_lookup d k' end
    else dict_lookup d k'.
Proof.
  destruct v as [x|]; cbn.
  - apply dict_lookup_set.
  - destruct (String.eqb k k'); reflexivity.
Qed.

Lemma extract_invoice_data_amount text :
  dict_lookup (extract_invoice_data text) "amount"
  = PyFloat <$> extract_amount amount_patterns text.
Proof.
  unfold extract_invoice_data.
  generalize (extract_amount amount_patterns text) as amount.
  generalize (first_group invoice_patterns text) as number.
  generalize (first_group date_patterns text) as date.
  generalize (extract_vendor vendor_patterns text) as vendor.
  generalize (PyString.any_in business_indicators (PyString.lower text)) as business.
  intros business vendor date number amount.
  set (d3 := set_if_found _ "vendor_name" _).
  assert (H : dict_lookup d3 "amount" = PyFloat <$> amount).
  { unfold d3. rewrite !dict_lookup_set_if_found. cbn.
    destruct amount, number; reflexivity. }
  destruct (dict_lookup d3 "vendor_name"); [exact H |].
  destruct business; [| exact H].
  rewrite dict_lookup_set. cbn. exact H.
Qed.

Lemma extract_amount_step pattern rest text :
  extract_amount (pattern :: rest) text
  = match amount_candidate text pattern with
    | Some x => Some x
    | None => extract_amount rest text
    end.
Proof.
  cbn. unfold amount_candidate. destruct (re_search pattern text); reflexivity.
Qed.

Lemma extract_amount_first patterns text i p x :
  patterns !! i = Some p ->
  amount_candidate text p = Some x ->
  (forall j q, (j < i)%nat -> patterns !! j = Some q -> amount_candidate text q = None) ->
  extract_amount patterns text = Some x.
Proof.
  revert i. induction patterns as [|p0 rest IH]; intros i Hi Hc Hearlier.
  - discriminate Hi.
  - rewrite extract_amount_step. destruct i as [|i]; cbn in Hi.
    + inversion Hi; subst p0. rewrite Hc. reflexivity.
    + rewrite (Hearlier 0%nat p0 (Nat.lt_0_succ i) eq_refl).
      apply (IH i Hi Hc). intros j q Hj Hq.
      apply (Hearlier (S j) q); [apply -> Nat.succ_lt_mono; exact Hj | exact Hq].
Qed.

Lemma extract_amount_none patterns text :
  (forall p, In p patterns -> amount_candidate text p = None) ->
  extract_amount patterns text = None.
Proof.
  induction patterns as [|p0 rest IH]; intros H; [reflexivity |].
  rewrite extract_amount_step, (H p0 (or_introl eq_refl)).
  apply IH. intros p Hp. apply H. right. exact Hp.
Qed.

(** C9. The extractor is a total function. Its amount is that of the
    first pattern, in the fixed order total/amount/sum label, dollar sign
    before, currency word after, whose match, commas removed, [float]
    accepts: a pattern that does not match, or whose match [float]
    refuses, is passed over. When no pattern gives an amount the key
    [amount] is absent from the result. *)
Theorem amount_is_first_parseable_match text :
  amount_patterns
  = ["(?:total|amount|sum)\s*:?\s*\$?([0-9,]+\.?[0-9]*)";
     "\$([0-9,]+\.?[0-9]*)";
     "([0-9,]+\.?[0-9]*)\s*(?:dollars?|usd|\$)"]
  /\ (forall p, amount_candidate text p
                = match re_search p text with
                  | Some g => float_of_str (PyString.remove_char "," g)
                  | None => None
                  end)
  /\ (forall i p x,
        amount_patterns !! i = Some p ->
        amount_candidate text p = Some x ->
        (forall j q, (j < i)%nat -> amount_patterns !! j = Some q ->
                     amount_candidate text q = None) ->
        dict_lookup (extract_invoice_data text) "amount" = Some (PyFloat x))
  /\ ((forall p, In p amount_patterns -> amount_candidate text p = None) ->
      dict_lookup (extract_invoice_data text) "amount" = None).
Proof.
  split; [reflexivity |]. split; [reflexivity |]. split.
  - intros i p x Hi Hc Hearlier. rewrite extract_invoice_data_amount.
    rewrite (extract_amount_first _ _ _ _ _ Hi Hc Hearlier). reflexivity.
  - intros H. rewrite extract_invoice_data_amount, (extract_amount_none _ _ H).
    reflexivity.
Qed.

End Properties.

(** * The statements on the sample data *)

(** The "Restricted Items" case of [test_audit.py]: rejected, red, 0, one
    violation although the second item is within its limit. *)
Lemma category_decision_rule_witness :
  let result :=
    @perform_audit sample_builtins "Invoice with alcohol purchase" restricted_text
      default_rules in
  (approval_status result, status_color result, compliance_score result)
  = (Some "rejected", Some "red", NInt 0)
  /\ map violation_type (violations result) = ["restricted_item"].
Proof.
  pose proof (@category_decision_rule sample_builtins "Invoice with alcohol purchase"
                restricted_text default_rules
                [("items", PyList [item_value "Wine Bottle" "Alcohol" (PyFloat 500);
                                   item_value "Business Lunch" "Food" (PyFloat 800)]);
                 ("total_amount", PyFloat 1300)]
                [item_value "Wine Bottle" "Alcohol" (PyFloat 500);
                 item_value "Business Lunch" "Food" (PyFloat 800)]
                restricted_line_items
                eq_refl eq_refl ltac:(repeat constructor))
    as [Hdecision [Hviolations _]].
  split.
  - exact Hdecision.
  - cbv zeta in Hviolations. cbv zeta. rewrite Hviolations. reflexivity.
Defined.

(** [json.loads("[]")] is a list, which has no [get]. *)
Lemma perform_audit_degraded_result_witness :
  let result := @perform_audit sample_builtins "Invoice for taxi" "[]" default_rules in
  is_compliant result = false
  /\ total_violations result = 1
  /\ (exists v,
        violations result = [v]
        /\ violation_type v = "processing_error"
        /\ v_severity v = "high"
        /\ message v = "Error processing audit: " ++ "'list' object has no attribute 'get'")
  /\ compliance_score result = NInt 0
  /\ approval_status result = None
  /\ status_color result = None.
Proof.
  apply (@perform_audit_degraded_result sample_builtins "Invoice for taxi" "[]" default_rules
           (Exn AttributeError "'list' object has no attribute 'get'")).
  - reflexivity.
  - discriminate.
Defined.

(** The "Whiskey Image Response" case of [test_image_audit.py]. *)
Lemma keyword_fallback_decision_witness :
  let result := @perform_audit sample_builtins whiskey_response "invalid json" default_rules in
  approval_status result = Some "rejected"
  /\ compliance_score result = NInt 0
  /\ total_violations result = 1
  /\ exists v flagged,
       violations result = [v]
       /\ violation_type v = "restricted_item"
       /\ flagged_items v = Some flagged
       /\ In (PyStr "whiskey") flagged.
Proof.
  destruct (@keyword_fallback_decision sample_builtins whiskey_response "invalid json"
              default_rules (Exn JSONDecodeError "Expecting value: line 1 column 1 (char 0)")
              eq_refl eq_refl) as [_ [Hrejected _]].
  destruct (Hrejected eq_refl eq_refl)
    as [Hstatus [Hscore [Htotal [v [flagged [Hv [Htype [Hflagged [_ [_ Hwhiskey]]]]]]]]]].
  repeat split; try assumption.
  exists v, flagged. repeat split; try assumption.
  apply Hwhiskey. reflexivity.
Defined.

(** The amount "abc" gives the degraded result. *)
Lemma absent_amount_is_zero_unparsable_degrades_witness :
  approval_status
    (@perform_audit sample_builtins "Invoice for taxi" unparsable_text default_rules) = None.
Proof.
  destruct (@absent_amount_is_zero_unparsable_degrades sample_builtins) as [_ Hbad].
  destruct (Hbad "Invoice for taxi" unparsable_text default_rules
              [("items", PyList [item_value "Taxi" "Travel" (PyStr "abc")]);
               ("total_amount", PyInt 0)]
              [item_value "Taxi" "Travel" (PyStr "abc")]
              [("name", PyStr "Taxi"); ("category", PyStr "Travel"); ("amount", PyStr "abc")]
              (PyStr "abc") (Exn ValueError "could not convert string to float: 'abc'")
              eq_refl eq_refl (or_introl eq_refl) eq_refl eq_refl)
    as [e' [_ [Hstatus _]]].
  exact Hstatus.
Defined.

(** Against C5 as stated: the item whose amount is the string "abc" does not
    get the result of the same item with amount 0 (approved, score 100); it
    gets the degraded result, with a [processing_error] violation and no
    approval status. *)
Lemma unparsable_amount_counterexample :
  let unparsable :=
    @perform_audit sample_builtins "Invoice for taxi" unparsable_text default_rules in
  let zero :=
    @perform_audit sample_builtins "Invoice for taxi" zero_amount_text default_rules in
  approval_status zero = Some "approved"
  /\ compliance_score zero = NInt 100
  /\ approval_status unparsable = None
  /\ map violation_type (violations unparsable) = ["processing_error"]
  /\ unparsable <> zero.
Proof.
  cbv zeta. repeat split. intros H.
  apply (f_equal approval_status) in H. discriminate H.
Defined.

(** The evaluator's result on the fields of [comma_response] (an amount, no
    date, no vendor) under three required-field policies. *)
Lemma total_violations_is_length_witness :
  exists result,
    @validate_against_policies sample_builtins
      (@extract_invoice_data sample_builtins comma_response) sample_policies = Return result
    /\ total_violations result = 2
    /\ total_violations result = len (violations result).
Proof.
  eexists. split; [reflexivity |]. split; [reflexivity |].
  apply (@total_violations_is_length sample_builtins).
  apply (@produced_by_policies sample_builtins
           (@extract_invoice_data sample_builtins comma_response) sample_policies).
  reflexivity.
Defined.

Lemma compliant_iff_approved_witness :
  is_compliant
    (@perform_audit sample_builtins "Invoice for expensive meal" exceeded_text default_rules)
  = String.eqb "warning" "approved".
Proof.
  apply (@compliant_iff_approved sample_builtins).
  - apply produced_by_perform_audit.
  - reflexivity.
Defined.

(** Three active policies, two violations of severity medium: the score is
    [round(1 / 3 * 100, 2)]. *)
#[warnings="-inexact-float"]
Lemma policy_score_witness :
  exists result,
    @validate_against_policies sample_builtins
      (@extract_invoice_data sample_builtins comma_response) sample_policies = Return result
    /\ compliance_score result = NFloat 33.33%float
    /\ is_compliant result = false
    /\ approval_status result = None
    /\ status_color result = None.
Proof.
  eexists. split; [reflexivity |].
  destruct (@policy_score sample_builtins
              (@extract_invoice_data sample_builtins comma_response) sample_policies _ eq_refl)
    as [Hscore [Hcompliant [Hstatus Hcolor]]].
  repeat split; assumption.
Defined.

(** On [comma_response] the first pattern matches a lone comma, which
    [float] refuses once the comma is removed; the second gives 45.99. *)
#[warnings="-inexact-float"]
Lemma amount_is_first_parseable_match_witness :
  @amount_candidate sample_builtins comma_response
    "(?:total|amount|sum)\s*:?\s*\$?([0-9,]+\.?[0-9]*)" = None
  /\ dict_lookup (@extract_invoice_data sample_builtins comma_response) "amount"
     = Some (PyFloat 45.99%float).
Proof.
  split; [reflexivity |].
  destruct (@amount_is_first_parseable_match sample_builtins comma_response)
    as [_ [_ [Hfirst _]]].
  apply (Hfirst 1%nat "\$([0-9,]+\.?[0-9]*)"); [reflexivity | reflexivity |].
  intros j q Hj Hq. destruct j as [|j]; [| lia].
  inversion Hq. reflexivity.
Defined.

(** The same items under the totals 2000.0 and 999999.0. *)
Lemma total_amount_is_ignored_witness :
  approved_text <> retotaled_text
  /\ @perform_audit sample_builtins "Invoice for business expenses" approved_text default_rules
     = @perform_audit sample_builtins "Invoice for business expenses" retotaled_text
         default_rules.
Proof.
  split; [discriminate |].
  apply (@total_amount_is_ignored sample_builtins "Invoice for business expenses" default_rules
           approved_text retotaled_text
           [("items", PyList [item_value "Business Lunch" "Food" (PyFloat 800);
                              item_value "Office Supplies" "Office Supplies" (PyFloat 1200)]);
            ("total_amount", PyFloat 2000)]
           [("items", PyList [item_value "Business Lunch" "Food" (PyFloat 800);
                              item_value "Office Supplies" "Office Supplies" (PyFloat 1200)]);
            ("total_amount", PyFloat 999999)]);
    reflexivity.
Defined.

(** * The cases of the repository's test scripts *)

(** [test_audit.py], "Approved Invoice". *)
Example test_audit_approved :
  @perform_audit sample_builtins "Invoice for business expenses" approved_text default_rules
  = {| is_compliant := true;
       total_violations := 0;
       violations := [];
       compliance_score := NInt 100;
       summary := "All items approved - No policy violations found";
       approval_status := Some "approved";
       status_color := Some "green" |}.
Proof. reflexivity. Qed.

(** [test_audit.py], "Amount Limit Exceeded". *)
Example test_audit_amount_exceeded :
  @perform_audit sample_builtins "Invoice for expensive meal" exceeded_text default_rules
  = {| is_compliant := false;
       total_violations := 1;
       violations := [
         {| v_rule_name := "Food - Amount Limit Exceeded";
            v_field_name := "amount";
            violation_type := "amount_exceeded";
            v_severity := "medium";
            message := "Expensive Dinner amount Rs.2000.0 exceeds Food limit of Rs.1500.0";
            flagged_items := Some [PyStr "Expensive Dinner"] |}];
       compliance_score := NInt 50;
       summary := "Warning - 1 items exceed category limits";
       approval_status := Some "warning";
       status_color := Some "yellow" |}.
Proof. reflexivity. Qed.

(** [test_image_audit.py]: the statuses of its six responses, all with the
    JSON text "invalid json". The script expects "rejected" for the last
    two (spa, jewelry); the fallback scans for alcohol keywords only. *)
Example test_image_audit_statuses :
  map (fun response =>
         approval_status (@perform_audit sample_builtins response "invalid json" default_rules))
      [whiskey_response;
       "Invoice from Wine Shop showing bottle of wine purchase for $25.00. "
       ++ "Customer bought red wine for dinner.";
       "Receipt shows alcoholic beverage purchase from restaurant. "
       ++ "Customer ordered alcoholic drink with meal.";
       "Invoice from restaurant showing food items: burger, fries, and soda. "
       ++ "Total amount $15.50 from McDonald's.";
       "Receipt from luxury spa showing massage services and leisure activities. "
       ++ "Total $200 for spa treatment.";
       "Invoice from jewelry store showing diamond ring purchase. "
       ++ "Luxury item cost $5000 from high-end boutique."]
  = [Some "rejected"; Some "rejected"; Some "rejected"; Some "approved";
     Some "approved"; Some "approved"].
Proof. reflexivity. Qed.

(** * Further properties *)

Section CategoryAuditProperties.
Context {B : Builtins}.

(** *** The category audit as a function of the line items *)

Lemma len_flagged {A C} (f : A -> bool) (g : A -> C) (l : list A) :
  len (flat_map (fun x => if f x then [g x] else []) l) = len (List.filter f l).
Proof.
  unfold len. f_equal. induction l as [|x l IH]; cbn; [reflexivity |].
  destruct (f x); cbn; rewrite IH; reflexivity.
Qed.

Lemma filter_unrestricted_exceeds rd lis :
  existsb (item_restricted rd) lis = false ->
  List.filter (fun li => (negb (item_restricted rd li) && item_exceeds rd li)%bool) lis
  = List.filter (item_exceeds rd) lis.
Proof.
  induction lis as [|li lis IH]; cbn; [reflexivity |].
  intros H. apply orb_false_iff in H. destruct H as [Hli Hrest].
  rewrite Hli, (IH Hrest). reflexivity.
Qed.

Lemma no_violation_iff rd lis :
  flat_map (item_violations rd) lis = []
  <-> existsb (item_restricted rd) lis = false /\ existsb (item_exceeds rd) lis = false.
Proof.
  induction lis as [|li lis IH]; cbn; [tauto |].
  pose proof (item_violations_cases rd li) as Hc.
  destruct (item_violations rd li) as [|v [|v' vs]]; cbn.
  - destruct Hc as [-> ->]. cbn. exact IH.
  - split; [discriminate |]. intros [H1 H2].
    apply orb_false_iff in H1. apply orb_false_iff in H2.
    destruct Hc as [[_ Hr] | [_ [_ He]]]; [destruct H1; congruence | destruct H2; congruence].
  - destruct Hc.
Qed.

Lemma decide_result_fold rd lis :
  decide_result (fold_left (fun st li => after_item rd li st) lis initial_state)
  = category_audit rd lis.
Proof.
  destruct (fold_after_item rd lis initial_state) as [Hv [Hr Ha]]. cbn in Hv, Hr, Ha.
  unfold decide_result, category_audit.
  rewrite Hr, Ha, Hv, !some_flagged, !len_flagged.
  destruct (existsb (item_restricted rd) lis) eqn:Er.
  - cbn. destruct (flat_map (item_violations rd) lis) eqn:Ev; [| reflexivity].
    apply no_violation_iff in Ev. destruct Ev; congruence.
  - rewrite (existsb_unrestricted_exceeds _ _ Er), (filter_unrestricted_exceeds _ _ Er).
    destruct (existsb (item_exceeds rd) lis) eqn:Ee; cbn.
    + destruct (flat_map (item_violations rd) lis) eqn:Ev; [| reflexivity].
      apply no_violation_iff in Ev. destruct Ev; congruence.
    + destruct (flat_map (item_violations rd) lis) eqn:Ev; [reflexivity |].
      assert (Hnil : flat_map (item_violations rd) lis = [])
        by (apply no_violation_iff; split; assumption).
      congruence.
Qed.

Lemma read_items_omap items :
  Forall (fun item => is_Some (read_item item)) items ->
  Forall2 (fun item li => read_item item = Some li) items (omap read_item items).
Proof.
  induction 1 as [|item items [li Hli] _ IH]; cbn; [constructor |].
  rewrite Hli. constructor; assumption.
Qed.

Lemma perform_audit_items groq_response json_data db d items :
  json_loads json_data = Return (PyDict d) ->
  default (PyList []) (dict_lookup d "items") = PyList items ->
  Forall (fun item => is_Some (read_item item)) items ->
  perform_audit groq_response json_data db
  = category_audit (rules_dict_of db) (omap read_item items).
Proof.
  intros Hload Hitems Hread. unfold perform_audit.
  rewrite (perform_audit_try_dict _ _ _ _ Hload), Hitems. cbn [py_iter mbind res_bind].
  rewrite (for_each_audit_read _ _ _ _ (read_items_omap _ Hread)). cbn [mbind res_bind].
  apply decide_result_fold.
Qed.


(** X1. Each path of [perform_audit] reads only its own input: when
    [json.loads] does not raise [JSONDecodeError] the raw text has no effect
    on the result, and when it does the rules have none. *)
Theorem each_path_reads_its_own_input json_data :
  (forall groq_response1 groq_response2 db,
      (forall e, json_loads json_data = Raise e -> exn_cls e <> JSONDecodeError) ->
      perform_audit groq_response1 json_data db = perform_audit groq_response2 json_data db)
  /\ (forall groq_response db1 db2 e,
        json_loads json_data = Raise e -> exn_cls e = JSONDecodeError ->
        perform_audit groq_response json_data db1 = perform_audit groq_response json_data db2).
Proof.
  split.
  - intros g1 g2 db Hparse. unfold perform_audit.
    change (perform_audit_try g2 json_data db) with (perform_audit_try g1 json_data db).
    destruct (perform_audit_try g1 json_data db) as [r|e] eqn:E; [reflexivity |].
    destruct (is_json_decode_error e) eqn:Ej; [| reflexivity].
    apply perform_audit_try_raise in E. destruct E as [E | E]; [| congruence].
    exfalso. apply (Hparse e E). unfold is_json_decode_error in Ej.
    destruct (exn_cls e); try discriminate Ej. reflexivity.
  - intros g db1 db2 e Hload Hcls.
    rewrite !(perform_audit_json_error _ _ _ _ Hload Hcls). reflexivity.
Qed.

(** X2. JSON text that parses to anything but an object (a list, a string, a
    number, a boolean, null) gives the degraded result, whose message names
    the missing [get] of that type. *)
Theorem non_object_json_degrades groq_response json_data db v :
  json_loads json_data = Return v ->
  (forall d, v <> PyDict d) ->
  perform_audit groq_response json_data db
  = processing_error
      (Exn AttributeError ("'" ++ type_name v ++ "' object has no attribute 'get'")).
Proof.
  intros Hload Hv. unfold perform_audit, perform_audit_try. rewrite Hload.
  destruct v; try reflexivity. exfalso. eapply Hv. reflexivity.
Qed.

(** X3. An object without [items], or whose [items] has nothing to iterate
    over (an empty list, and also an empty string or an empty object), is
    approved with score 100 and no violation, whatever the raw text and the
    rules. *)
Theorem no_items_is_approved groq_response json_data db d :
  json_loads json_data = Return (PyDict d) ->
  py_iter (default (PyList []) (dict_lookup d "items")) = Return [] ->
  perform_audit groq_response json_data db
  = {| is_compliant := true;
       total_violations := 0;
       violations := [];
       compliance_score := NInt 100;
       summary := "All items approved - No policy violations found";
       approval_status := Some "approved";
       status_color := Some "green" |}.
Proof.
  intros Hload Hiter. unfold perform_audit.
  rewrite (perform_audit_try_dict _ _ _ _ Hload), Hiter. reflexivity.
Qed.


Lemma rules_fold_lookup (rules : list AuditRule) (m : gmap string AuditRule) c :
  fold_left (fun d rule => <[category rule := rule]> d) rules m !! c
  = match last (List.filter (fun rule => String.eqb (category rule) c) rules) with
    | Some rule => Some rule
    | None => m !! c
    end.
Proof.
  revert m. induction rules as [|rule rules IH]; intros m; cbn; [reflexivity |].
  rewrite IH. destruct (String.eqb (category rule) c) eqn:E.
  - apply String.eqb_eq in E. rewrite last_cons.
    destruct (last (List.filter _ rules)); [reflexivity |].
    rewrite E. apply lookup_insert_eq.
  - destruct (last (List.filter _ rules)); [reflexivity |].
    apply lookup_insert_ne. intros Heq. rewrite Heq, String.eqb_refl in E. discriminate E.
Qed.

Lemma rules_dict_lookup db c :
  rules_dict_of db !! c
  = last (List.filter (fun rule => String.eqb (category rule) c) db).
Proof.
  unfold rules_dict_of. rewrite rules_fold_lookup.
  destruct (last _); [reflexivity | apply lookup_empty].
Qed.

(** X5. In [rules_dict] a category maps to the last rule of the table with
    that category, and to nothing when the table has none: of two rules for
    one category the later replaces the earlier, wherever they stand. *)
Theorem rules_dict_last_wins db c :
  rules_dict_of db !! c
  = last (List.filter (fun rule => String.eqb (category rule) c) db)
  /\ forall earlier later between after,
       category earlier = c -> category later = c ->
       Forall (fun rule => category rule <> c) after ->
       rules_dict_of (earlier :: between ++ later :: after) !! c = Some later.
Proof.
  split; [apply rules_dict_lookup |].
  intros earlier later between after He Hl Hafter. rewrite rules_dict_lookup.
  cbn [List.filter]. rewrite He, String.eqb_refl, List.filter_app. cbn [List.filter].
  rewrite Hl, String.eqb_refl.
  assert (Hnone : List.filter (fun rule => String.eqb (category rule) c) after = []).
  { induction Hafter as [|rule after Hrule _ IH]; [reflexivity |].
    cbn [List.filter]. apply String.eqb_neq in Hrule. rewrite Hrule. exact IH. }
  rewrite Hnone. rewrite app_comm_cons. apply last_snoc.
Qed.





Lemma len_item_violations rd lis :
  len (flat_map (item_violations rd) lis)
  = len (List.filter (fun li => (item_restricted rd li || item_exceeds rd li)%bool) lis).
Proof.
  unfold len. f_equal. induction lis as [|li lis IH]; cbn; [reflexivity |].
  rewrite length_app, IH.
  pose proof (item_violations_cases rd li) as Hc.
  destruct (item_violations rd li) as [|v [|v' vs]].
  - destruct Hc as [-> ->]. reflexivity.
  - destruct Hc as [[_ ->] | [_ [-> ->]]]; reflexivity.
  - destruct Hc.
Qed.

(** X8. The counts of the category audit: [total_violations] is the number
    of items that are restricted or over their limit, so at most the number
    of items; the summary of a rejected invoice gives the number of
    restricted items, that of a warned one the number of items over their
    limit. *)
Theorem violation_counts groq_response json_data db d items :
  json_loads json_data = Return (PyDict d) ->
  default (PyList []) (dict_lookup d "items") = PyList items ->
  Forall (fun item => is_Some (read_item item)) items ->
  let rd := rules_dict_of db in
  let lis := omap read_item items in
  let result := perform_audit groq_response json_data db in
  total_violations result
  = len (List.filter (fun li => (item_restricted rd li || item_exceeds rd li)%bool) lis)
  /\ total_violations result <= len items
  /\ (approval_status result = Some "rejected" ->
      summary result
      = "Cannot approve - " ++ PyString.of_Z (len (List.filter (item_restricted rd) lis))
        ++ " restricted items found")
  /\ (approval_status result = Some "warning" ->
      summary result
      = "Warning - " ++ PyString.of_Z (len (List.filter (item_exceeds rd) lis))
        ++ " items exceed category limits").
Proof.
  intros Hload Hitems Hread rd lis result. subst result.
  rewrite (perform_audit_items _ _ _ _ _ Hload Hitems Hread). fold rd lis.
  assert (Hlen : len (flat_map (item_violations rd) lis) <= len items).
  { rewrite len_item_violations. unfold len. apply inj_le.
    etransitivity; [apply List.filter_length_le |].
    unfold lis. clear. induction items as [|item items IH]; cbn; [lia |].
    destruct (read_item item); cbn; lia. }
  unfold category_audit. cbn.
  split; [apply len_item_violations |]. split; [exact Hlen |].
  destruct (existsb (item_restricted rd) lis);
    [| destruct (existsb (item_exceeds rd) lis)];
    split; intros H; try discriminate H; reflexivity.
Qed.

End CategoryAuditProperties.

(** *** Loops and strings *)

Lemma for_each_raises {A S} (body : A -> S -> res S) (l : list A) (x : A) :
  In x l ->
  (forall st, exists e, body x st = Raise e) ->
  forall st, exists e, for_each body l st = Raise e.
Proof.
  intros Hin Hx. induction l as [|y l IH]; intros st; [destruct Hin |].
  cbn. destruct Hin as [-> | Hin].
  - destruct (Hx st) as [e He]. rewrite He. cbn. eauto.
  - destruct (body y st) as [st'|e]; cbn; [apply IH; exact Hin | eauto].
Qed.

Lemma lower_app s1 s2 :
  PyString.lower (s1 ++ s2) = PyString.lower s1 ++ PyString.lower s2.
Proof.
  induction s1 as [|c s1 IH]; [reflexivity |].
  change (String c s1 ++ s2) with (String c (s1 ++ s2)). cbn. rewrite IH. reflexivity.
Qed.

Lemma prefix_app_r sub s post :
  String.prefix sub s = true -> String.prefix sub (s ++ post) = true.
Proof.
  revert s. induction sub as [|c sub IH]; intros s H; [destruct (s ++ post); reflexivity |].
  destruct s as [|c' s]; [discriminate H |].
  change (String c' s ++ post) with (String c' (s ++ post)). cbn in H |- *.
  destruct (ascii_dec c c'); [apply IH; exact H | discriminate H].
Qed.

Lemma contains_app_r sub s post :
  PyString.contains sub s = true -> PyString.contains sub (s ++ post) = true.
Proof.
  induction s as [|c s IH]; intros H.
  - cbn in H. rewrite orb_false_r in H. destruct sub; [| discriminate H].
    destruct post; reflexivity.
  - change (String c s ++ post) with (String c (s ++ post)).
    cbn [PyString.contains] in H |- *.
    apply orb_true_iff in H. apply orb_true_iff. destruct H as [H | H].
    + left. apply (prefix_app_r sub (String c s) post). exact H.
    + right. apply IH. exact H.
Qed.

Lemma contains_app_l sub pre s :
  PyString.contains sub s = true -> PyString.contains sub (pre ++ s) = true.
Proof.
  intros H. induction pre as [|c pre IH]; [exact H |].
  change (String c pre ++ s) with (String c (pre ++ s)).
  cbn [PyString.contains]. rewrite IH. apply orb_true_r.
Qed.

Lemma any_in_extend keywords pre s post :
  PyString.any_in keywords s = true ->
  PyString.any_in keywords (pre ++ s ++ post) = true.
Proof.
  unfold PyString.any_in. intros H. apply existsb_exists in H.
  destruct H as [k [Hin Hk]]. apply existsb_exists. exists k. split; [exact Hin |].
  apply contains_app_l, contains_app_r. exact Hk.
Qed.

Section FallbackProperties.
Context {B : Builtins}.

Lemma found_in_nil keywords content :
  PyString.found_in keywords content = [] <-> PyString.any_in keywords content = false.
Proof.
  unfold PyString.found_in, PyString.any_in.
  induction keywords as [|k keywords IH]; cbn; [tauto |].
  destruct (PyString.contains k content); cbn; [| exact IH].
  split; discriminate.
Qed.

Lemma keyword_fallback_rejects groq_response :
  approval_status (keyword_fallback groq_response) = Some "rejected"
  <-> PyString.any_in invoice_keywords (PyString.lower groq_response) = true
      /\ PyString.any_in alcohol_keywords (PyString.lower groq_response) = true.
Proof.
  unfold keyword_fallback.
  pose proof (found_in_nil alcohol_keywords (PyString.lower groq_response)) as Hnil.
  destruct (PyString.any_in invoice_keywords (PyString.lower groq_response));
    cbn [negb approval_status].
  - destruct (PyString.found_in alcohol_keywords (PyString.lower groq_response))
      as [|kw l]; cbn [approval_status].
    + rewrite (proj1 Hnil eq_refl). split; [discriminate | intros [_ H]; discriminate H].
    + split; [| reflexivity]. intros _. split; [reflexivity |].
      destruct (PyString.any_in alcohol_keywords (PyString.lower groq_response));
        [reflexivity |].
      destruct Hnil as [_ Hnil]. discriminate (Hnil eq_refl).
  - split; [discriminate | intros [H _]; discriminate H].
Qed.

(** X9. On the keyword fallback a rejection survives any text put before or
    after the raw text: once an invoice keyword and an alcohol keyword occur,
    a longer text that contains the raw text is rejected too. *)
Theorem fallback_rejection_survives_extension groq_response json_data db e before after :
  json_loads json_data = Raise e ->
  exn_cls e = JSONDecodeError ->
  approval_status (perform_audit groq_response json_data db) = Some "rejected" ->
  approval_status (perform_audit (before ++ groq_response ++ after) json_data db)
  = Some "rejected".
Proof.
  intros Hload Hcls. rewrite !(perform_audit_json_error _ _ _ _ Hload Hcls).
  rewrite !keyword_fallback_rejects, !lower_app. intros [Hi Ha].
  split; apply any_in_extend; assumption.
Qed.

End FallbackProperties.

Section PolicyProperties.
Context {B : Builtins}.

(** *** The policy evaluator *)

Lemma check_content_warning_raises policy :
  condition policy = "contains_keywords" ->
  exists e, check_content_warning policy = Raise e.
Proof.
  intros Hc. unfold check_content_warning. rewrite Hc. cbn.
  destruct (expected_value policy); cbn; eauto.
Qed.

Lemma policy_step_content_warning invoice_data policy violations :
  is_active policy = true ->
  rule_type policy = "content_warning" ->
  condition policy = "contains_keywords" ->
  exists e, policy_step invoice_data policy violations = Raise e.
Proof.
  intros Ha Ht Hc. unfold policy_step, check_policy. rewrite Ha, Ht. cbn.
  destruct (check_content_warning_raises policy Hc) as [e He]. rewrite He. cbn. eauto.
Qed.

Lemma content_warning_in_list_raises invoice_data policies policy :
  In policy policies ->
  is_active policy = true ->
  rule_type policy = "content_warning" ->
  condition policy = "contains_keywords" ->
  exists e, validate_against_policies invoice_data policies = Raise e.
Proof.
  intros Hin Ha Ht Hc. unfold validate_against_policies.
  destruct (for_each_raises (policy_step invoice_data) policies policy Hin
              (fun st => policy_step_content_warning invoice_data policy st Ha Ht Hc) [])
    as [e He].
  rewrite He. cbn. eauto.
Qed.

(** X10. The evaluator returns no result as soon as one active policy of the
    list is a content warning with condition [contains_keywords], wherever
    it stands in the list and whatever the fields and the other policies:
    the call raises. *)
Theorem active_content_warning_raises invoice_data policies policy :
  In policy policies ->
  is_active policy = true ->
  rule_type policy = "content_warning" ->
  condition policy = "contains_keywords" ->
  exists e, validate_against_policies invoice_data policies = Raise e.
Proof. apply content_warning_in_list_raises. Qed.

(** X11. With the policies [create_default_audit_policies] writes to an empty
    table, when they are active, [perform_basic_audit] returns no result
    for any text: it raises. *)
Theorem seeded_policies_make_basic_audit_raise groq_response :
  exists e,
    perform_basic_audit groq_response (create_default_audit_policies true []) = Raise e.
Proof.
  unfold perform_basic_audit.
  apply (content_warning_in_list_raises _ _
           (seed_policy true "Alcohol Content Warning" "content_warning" "content"
              "contains_keywords"
              (Some ("alcohol,beer,wine,liquor,vodka,whiskey,rum,gin,champagne,cocktail,bar,pub,"
                     ++ "brewery,distillery"))
              (Some "warning"))); try reflexivity.
  cbn. do 8 right. left. reflexivity.
Qed.

Lemma for_each_policy_step_active invoice_data policies violations :
  for_each (policy_step invoice_data) policies violations
  = for_each (policy_step invoice_data) (List.filter is_active policies) violations.
Proof.
  revert violations. induction policies as [|p policies IH]; intros violations;
    [reflexivity |].
  cbn [for_each List.filter]. destruct (is_active p) eqn:Ea.
  - cbn [for_each].
    destruct (policy_step invoice_data p violations); cbn [mbind res_bind];
      [apply IH | reflexivity].
  - assert (Hstep : policy_step invoice_data p violations = Return violations)
      by (unfold policy_step; rewrite Ea; reflexivity).
    rewrite Hstep. cbn [mbind res_bind]. apply IH.
Qed.

Lemma filter_filter {A} (f : A -> bool) (l : list A) :
  List.filter f (List.filter f l) = List.filter f l.
Proof.
  induction l as [|x l IH]; cbn; [reflexivity |].
  destruct (f x) eqn:E; cbn; [rewrite E, IH; reflexivity | exact IH].
Qed.

(** X12. Inactive policies have no effect at all: the evaluator gives the
    same outcome, result or exception, as on the list of the active
    policies alone. *)
Theorem inactive_policies_are_ignored invoice_data policies :
  validate_against_policies invoice_data policies
  = validate_against_policies invoice_data (List.filter is_active policies).
Proof.
  unfold validate_against_policies.
  rewrite filter_filter, <- for_each_policy_step_active. reflexivity.
Qed.

Lemma policy_violation_of policy vtype msg :
  (rule_type policy = "required_field" /\ vtype = "missing_field")
  \/ (rule_type policy = "amount_limit"
      /\ (vtype = "amount_exceeded" \/ vtype = "amount_below_minimum"))
  \/ (rule_type policy = "format_check" /\ vtype = "format_mismatch")
  \/ (rule_type policy = "date_range" /\ vtype = "date_out_of_range") ->
  violation_of policy (policy_violation policy vtype "medium" msg None).
Proof. intros H. unfold violation_of. cbn. repeat split. exact H. Qed.

Lemma check_policy_violation invoice_data policy v :
  check_policy invoice_data policy = Return (Some v) ->
  violation_of policy v.
Proof.
  unfold check_policy.
  set (field_value := dict_get invoice_data (field_name policy)).
  destruct (String.eqb (rule_type policy) "required_field") eqn:E1.
  { apply String.eqb_eq in E1. unfold check_required_field.
    destruct (_ && _)%bool; intros H; inversion H.
    apply policy_violation_of. tauto. }
  destruct (String.eqb (rule_type policy) "amount_limit" && truthy field_value)%bool eqn:E2.
  { apply andb_true_iff in E2. destruct E2 as [E2 _]. apply String.eqb_eq in E2.
    unfold check_amount_limit.
    destruct (py_float field_value) as [amount|e]; cbn [mbind res_bind];
      [| destruct (is_value_or_type_error e); (intros Hno; discriminate Hno)].
    destruct (py_float (of_opt_str (expected_value policy))) as [limit|e];
      cbn [mbind res_bind]; [| destruct (is_value_or_type_error e); (intros Hno; discriminate Hno)].
    destruct (_ && PyFloat.gt amount limit)%bool;
      [intros H; inversion H; apply policy_violation_of; tauto |].
    destruct (_ && PyFloat.lt amount limit)%bool;
      intros H; inversion H; apply policy_violation_of; tauto. }
  destruct (String.eqb (rule_type policy) "content_warning") eqn:E3.
  { unfold check_content_warning.
    destruct (String.eqb (condition policy) "contains_keywords"); [| (intros Hno; discriminate Hno)].
    destruct (expected_value policy); (intros Hno; discriminate Hno). }
  destruct (String.eqb (rule_type policy) "format_check" && truthy field_value)%bool eqn:E4.
  { apply andb_true_iff in E4. destruct E4 as [E4 _]. apply String.eqb_eq in E4.
    unfold check_format.
    destruct (String.eqb (condition policy) "format_match"); [| (intros Hno; discriminate Hno)].
    destruct (expected_value policy) as [pattern|]; [| (intros Hno; discriminate Hno)].
    destruct (re_match pattern (py_str field_value)) as [[|]|e]; cbn; intros H; inversion H.
    apply policy_violation_of. tauto. }
  destruct (String.eqb (rule_type policy) "date_range" && truthy field_value)%bool eqn:E5;
    [| (intros Hno; discriminate Hno)].
  apply andb_true_iff in E5. destruct E5 as [E5 _]. apply String.eqb_eq in E5.
  unfold check_date_range.
  destruct (String.eqb (condition policy) "within_days"); [| (intros Hno; discriminate Hno)].
  destruct (expected_value policy) as [expected|]; [| (intros Hno; discriminate Hno)].
  destruct (int_of_str expected) as [days_limit|]; [| (intros Hno; discriminate Hno)].
  destruct (max_timedelta_days <? Z.abs days_limit); [(intros Hno; discriminate Hno) |].
  cbv zeta.
  destruct ((0 <? today - days_limit) && (today - days_limit <=? max_date_ordinal))%bool;
    [| (intros Hno; discriminate Hno)].
  destruct (_ || _)%bool; intros H; inversion H.
  apply policy_violation_of. tauto.
Qed.

Lemma for_each_policy_step_violations invoice_data policies violations0 violations :
  for_each (policy_step invoice_data) policies violations0 = Return violations ->
  exists found,
    violations = (violations0 ++ found)%list
    /\ (length found <= length (List.filter is_active policies))%nat
    /\ Forall (fun v => exists policy,
                   In policy policies /\ is_active policy = true /\ violation_of policy v)
              found.
Proof.
  revert violations0. induction policies as [|p policies IH]; intros violations0 H.
  - inversion H. exists []. rewrite app_nil_r.
    split; [reflexivity | split; [cbn; lia | constructor]].
  - cbn [for_each] in H.
    destruct (policy_step invoice_data p violations0) as [vs1|e] eqn:Estep;
      cbn [mbind res_bind] in H; [| discriminate H].
    destruct (IH _ H) as [found [-> [Hlen Hall]]].
    assert (Hweaken : Forall (fun v => exists policy,
                                  In policy (p :: policies) /\ is_active policy = true
                                  /\ violation_of policy v) found).
    { eapply Forall_impl; [exact Hall |]. cbn. intros v [q [Hq Hv]]. eauto. }
    unfold policy_step in Estep. cbn [List.filter].
    destruct (is_active p) eqn:Ea; cbn [negb] in Estep.
    + destruct (check_policy invoice_data p) as [[v|]|e] eqn:Ec; cbn [mbind res_bind] in Estep;
        inversion Estep; subst vs1.
      * exists (v :: found). rewrite <- app_assoc.
        split; [reflexivity | split; [cbn; lia |]].
        constructor; [| exact Hweaken].
        exists p. split; [left; reflexivity | split; [exact Ea |]].
        eapply check_policy_violation. exact Ec.
      * exists found. split; [reflexivity | split; [cbn; lia | exact Hweaken]].
    + inversion Estep; subst vs1. exists found.
      split; [reflexivity | split; [exact Hlen | exact Hweaken]].
Qed.

(** X13. In a result the evaluator returns, every violation comes from an
    active policy of the list: it bears that policy's rule name, field name
    and severity (medium when the policy has none), has the violation type
    of the policy's rule type, and no flagged items. So no returned result
    holds a [content_warning] violation, and there are at most as many
    violations as active policies. *)
Theorem violations_come_from_active_policies invoice_data policies result :
  validate_against_policies invoice_data policies = Return result ->
  total_violations result <= len (List.filter is_active policies)
  /\ Forall (fun v => exists policy,
                 In policy policies /\ is_active policy = true /\ violation_of policy v)
            (violations result).
Proof.
  intros H. apply validate_return in H. destruct H as [vs [Hloop ->]].
  apply for_each_policy_step_violations in Hloop.
  destruct Hloop as [found [-> [Hlen Hall]]]. cbn.
  split; [unfold len; apply inj_le; exact Hlen | exact Hall].
Qed.

(** X14. A field that is absent or false as a Python value (None, 0, 0.0, the
    empty string) is missing for a required-field policy and is not looked
    at by the amount, format and date policies: an extracted amount of 0.0
    is reported as missing and never as below the minimum. *)
Theorem falsy_field_is_missing_and_unchecked invoice_data policy :
  truthy (dict_get invoice_data (field_name policy)) = false ->
  (rule_type policy = "required_field" -> condition policy = "exists" ->
   exists v,
     check_policy invoice_data policy = Return (Some v)
     /\ violation_type v = "missing_field"
     /\ message v = PyString.title (PyString.replace_char "_" " " (field_name policy))
                    ++ " is required but missing")
  /\ (rule_type policy = "amount_limit" \/ rule_type policy = "format_check"
      \/ rule_type policy = "date_range" ->
      check_policy invoice_data policy = Return None).
Proof.
  intros Hfalsy. unfold check_policy. rewrite Hfalsy. split.
  - intros Ht Hc. rewrite Ht. cbn. unfold check_required_field. rewrite Hc, Hfalsy. cbn.
    eexists. repeat split.
  - intros [Ht | [Ht | Ht]]; rewrite Ht; reflexivity.
Qed.

End PolicyProperties.

Lemma for_each_returns {A S} (body : A -> S -> res S) (l : list A) :
  Forall (fun x => forall st, exists st', body x st = Return st') l ->
  forall st, exists st', for_each body l st = Return st'.
Proof.
  induction 1 as [|x l Hx _ IH]; intros st; cbn; [eauto |].
  destruct (Hx st) as [st' ->]. cbn. apply IH.
Qed.

Section ExtractorProperties.
Context {B : Builtins}.

(** *** The field extractor *)

Ltac lookup_cases H :=
  repeat match type of H with
    | context [String.eqb ?a ?k] =>
        let E := fresh "E" in
        destruct (String.eqb a k) eqn:E;
        [apply String.eqb_eq in E; subst k; inversion H; subst; clear H |]
    end.

Lemma extract_invoice_data_shape text k v :
  dict_lookup (extract_invoice_data text) k = Some v ->
  (k = "invoice_number"
   /\ exists s, v = PyStr s /\ first_group invoice_patterns text = Some s)
  \/ (k = "amount"
      /\ exists x, v = PyFloat x /\ extract_amount amount_patterns text = Some x)
  \/ (k = "date" /\ exists s, v = PyStr s /\ first_group date_patterns text = Some s)
  \/ (k = "vendor_name"
      /\ exists s, v = PyStr s
         /\ (extract_vendor vendor_patterns text = Some s
             \/ (extract_vendor vendor_patterns text = None
                 /\ PyString.any_in business_indicators (PyString.lower text) = true
                 /\ s = "Business entity detected"))).
Proof.
  unfold extract_invoice_data. intros H.
  destruct (first_group invoice_patterns text) as [number|];
    destruct (extract_amount amount_patterns text) as [amount|];
    destruct (first_group date_patterns text) as [date|];
    destruct (extract_vendor vendor_patterns text) as [vendor|];
    destruct (PyString.any_in business_indicators (PyString.lower text));
    cbn [fmap option_fmap option_map] in H;
    match type of H with
    | dict_lookup ?d k = _ => let d' := eval cbv in d in change d with d' in H
    end;
    cbn [dict_lookup] in H; lookup_cases H; try discriminate H; eauto 12.
Qed.

(** X15. What the extractor returns has no key besides [invoice_number],
    [amount], [date] and [vendor_name], and each at most once. The amount is
    a float, the three others are strings; the vendor name is the stripped
    match of a vendor pattern or, when no pattern gives one and the lowered
    text holds a business word, the fixed text "Business entity detected". *)
Theorem extracted_fields_shape text :
  NoDup (map fst (extract_invoice_data text))
  /\ forall k v,
       dict_lookup (extract_invoice_data text) k = Some v ->
       (k = "invoice_number"
        /\ exists s, v = PyStr s /\ first_group invoice_patterns text = Some s)
       \/ (k = "amount"
           /\ exists x, v = PyFloat x /\ extract_amount amount_patterns text = Some x)
       \/ (k = "date" /\ exists s, v = PyStr s /\ first_group date_patterns text = Some s)
       \/ (k = "vendor_name"
           /\ exists s, v = PyStr s
              /\ (extract_vendor vendor_patterns text = Some s
                  \/ (extract_vendor vendor_patterns text = None
                      /\ PyString.any_in business_indicators (PyString.lower text) = true
                      /\ s = "Business entity detected"))).
Proof.
  split; [| intros k v; apply extract_invoice_data_shape].
  unfold extract_invoice_data.
  destruct (first_group invoice_patterns text) as [number|];
    destruct (extract_amount amount_patterns text) as [amount|];
    destruct (first_group date_patterns text) as [date|];
    destruct (extract_vendor vendor_patterns text) as [vendor|];
    destruct (PyString.any_in business_indicators (PyString.lower text));
    apply (bool_decide_unpack _); vm_compute; exact I.
Qed.

Lemma py_float_raise_caught v e :
  (forall n, v <> PyInt n) ->
  py_float v = Raise e ->
  is_value_or_type_error e = true.
Proof.
  intros Hv. destruct v; cbn; intros H; try (inversion H; reflexivity).
  - exfalso. eapply Hv. reflexivity.
  - destruct (float_of_str s); inversion H; reflexivity.
Qed.

Lemma check_amount_limit_returns policy field_value :
  (forall n, field_value <> PyInt n) ->
  exists o, check_amount_limit policy field_value = Return o.
Proof.
  intros Hv. unfold check_amount_limit.
  destruct (py_float field_value) as [amount|e] eqn:Ea; cbn [mbind res_bind].
  - destruct (py_float (of_opt_str (expected_value policy))) as [limit|e] eqn:El;
      cbn [mbind res_bind].
    + destruct (_ && PyFloat.gt amount limit)%bool; [eauto |].
      destruct (_ && PyFloat.lt amount limit)%bool; eauto.
    + assert (Hexp : forall n, of_opt_str (expected_value policy) <> PyInt n)
        by (intros n; destruct (expected_value policy); discriminate).
      rewrite (py_float_raise_caught _ _ Hexp El). eauto.
  - rewrite (py_float_raise_caught _ _ Hv Ea). eauto.
Qed.

Lemma check_policy_returns invoice_data policy :
  (forall n, dict_get invoice_data (field_name policy) <> PyInt n) ->
  rule_type policy <> "content_warning" ->
  rule_type policy <> "format_check" ->
  rule_type policy <> "date_range" ->
  exists o, check_policy invoice_data policy = Return o.
Proof.
  intros Hv H1 H2 H3. unfold check_policy.
  apply String.eqb_neq in H1, H2, H3. rewrite H1, H2, H3. cbn [andb].
  destruct (String.eqb (rule_type policy) "required_field").
  - unfold check_required_field. destruct (_ && _)%bool; eauto.
  - destruct (String.eqb (rule_type policy) "amount_limit" && _)%bool; [| eauto].
    apply check_amount_limit_returns. exact Hv.
Qed.

(** X16. [perform_basic_audit] returns a result for every text when no
    active policy is a content warning, a format check or a date range:
    required-field and amount-limit policies, and policies of an unknown
    rule type, never make it raise on extracted fields. *)
Theorem basic_audit_returns groq_response policies :
  Forall (fun policy =>
            is_active policy = true ->
            rule_type policy <> "content_warning"
            /\ rule_type policy <> "format_check"
            /\ rule_type policy <> "date_range") policies ->
  exists result, perform_basic_audit groq_response policies = Return result.
Proof.
  intros Hsafe. unfold perform_basic_audit, validate_against_policies.
  assert (Hfields : forall k n, dict_get (extract_invoice_data groq_response) k <> PyInt n).
  { intros k n. unfold dict_get.
    destruct (dict_lookup (extract_invoice_data groq_response) k) as [v|] eqn:E;
      [| discriminate].
    apply extract_invoice_data_shape in E. cbn.
    destruct E as [[_ [s [-> _]]] | [[_ [x [-> _]]] | [[_ [s [-> _]]] | [_ [s [-> _]]]]]];
      discriminate. }
  destruct (for_each_returns (policy_step (extract_invoice_data groq_response)) policies)
    with (st := @nil Violation) as [vs Hvs].
  - eapply Forall_impl; [exact Hsafe |]. cbn. intros policy Hp st. unfold policy_step.
    destruct (is_active policy); cbn [negb]; [| eauto].
    destruct (Hp eq_refl) as [H1 [H2 H3]].
    destruct (check_policy_returns (extract_invoice_data groq_response) policy
                (Hfields _) H1 H2 H3) as [[v|] ->]; cbn; eauto.
  - rewrite Hvs. cbn. eauto.
Qed.

Lemma rstrip_cons c s :
  PyString.rstrip (String c s)
  = match PyString.rstrip s with
    | EmptyString => if PyString.is_space c then EmptyString else String c EmptyString
    | r => String c r
    end.
Proof. reflexivity. Qed.

Lemma rstrip_idempotent s : PyString.rstrip (PyString.rstrip s) = PyString.rstrip s.
Proof.
  induction s as [|c s IH]; [reflexivity |].
  rewrite rstrip_cons. destruct (PyString.rstrip s) as [|c' r] eqn:Er.
  - destruct (PyString.is_space c) eqn:Ec; [reflexivity |].
    rewrite rstrip_cons. cbn [PyString.rstrip]. rewrite Ec. reflexivity.
  - rewrite rstrip_cons, IH. reflexivity.
Qed.

Lemma lstrip_head s :
  PyString.lstrip s = ""
  \/ exists c t, PyString.lstrip s = String c t /\ PyString.is_space c = false.
Proof.
  induction s as [|c s IH]; [left; reflexivity |].
  cbn [PyString.lstrip]. destruct (PyString.is_space c) eqn:Ec; [exact IH |].
  right. eauto.
Qed.

Lemma rstrip_head c t :
  PyString.is_space c = false -> exists t', PyString.rstrip (String c t) = String c t'.
Proof.
  intros Hc. rewrite rstrip_cons. destruct (PyString.rstrip t); [| eauto].
  rewrite Hc. eauto.
Qed.

Lemma strip_idempotent s : PyString.strip (PyString.strip s) = PyString.strip s.
Proof.
  unfold PyString.strip. destruct (lstrip_head s) as [-> | [c [t [-> Hc]]]]; [reflexivity |].
  destruct (rstrip_head c t Hc) as [t' Ht']. rewrite Ht'.
  cbn [PyString.lstrip]. rewrite Hc, <- Ht'. apply rstrip_idempotent.
Qed.

Lemma extract_vendor_some patterns text s :
  extract_vendor patterns text = Some s ->
  (2 < String.length s)%nat
  /\ exists pattern g,
       In pattern patterns /\ re_search pattern text = Some g /\ s = PyString.strip g.
Proof.
  induction patterns as [|pattern rest IH]; cbn [extract_vendor]; [discriminate |].
  destruct (re_search pattern text) as [g|] eqn:Eg.
  - cbv zeta. destruct (2 <? String.length (PyString.strip g))%nat eqn:El.
    + intros H. inversion H. subst s. split; [apply Nat.ltb_lt; exact El |].
      exists pattern, g. split; [left; reflexivity | split; [exact Eg | reflexivity]].
    + intros H. destruct (IH H) as [Hlen [p [g' [Hin Hrest]]]].
      split; [exact Hlen |]. exists p, g'. split; [right; exact Hin | exact Hrest].
  - intros H. destruct (IH H) as [Hlen [p [g' [Hin Hrest]]]].
    split; [exact Hlen |]. exists p, g'. split; [right; exact Hin | exact Hrest].
Qed.

Lemma extract_invoice_data_vendor text :
  dict_lookup (extract_invoice_data text) "vendor_name"
  = match extract_vendor vendor_patterns text with
    | Some s => Some (PyStr s)
    | None =>
        if PyString.any_in business_indicators (PyString.lower text)
        then Some (PyStr "Business entity detected")
        else None
    end.
Proof.
  unfold extract_invoice_data.
  destruct (first_group invoice_patterns text) as [number|];
    destruct (extract_amount amount_patterns text) as [amount|];
    destruct (first_group date_patterns text) as [date|];
    destruct (extract_vendor vendor_patterns text) as [vendor|];
    destruct (PyString.any_in business_indicators (PyString.lower text));
    reflexivity.
Qed.

(** X17. The vendor name, when the extractor gives one, is longer than two
    characters and has no white space at either end: it is the stripped
    match of a vendor pattern, a shorter match being passed over, or the
    fixed text "Business entity detected"; it is absent exactly when no
    pattern gives a name and the lowered text holds no business word. *)
Theorem vendor_name_is_stripped_and_long text :
  match dict_lookup (extract_invoice_data text) "vendor_name" with
  | Some v =>
      exists s,
        v = PyStr s
        /\ (2 < String.length s)%nat
        /\ PyString.strip s = s
        /\ ((exists pattern g,
               In pattern vendor_patterns /\ re_search pattern text = Some g
               /\ s = PyString.strip g)
            \/ (extract_vendor vendor_patterns text = None
                /\ s = "Business entity detected"))
  | None =>
      extract_vendor vendor_patterns text = None
      /\ PyString.any_in business_indicators (PyString.lower text) = false
  end.
Proof.
  rewrite extract_invoice_data_vendor.
  destruct (extract_vendor vendor_patterns text) as [s|] eqn:Ev.
  - destruct (extract_vendor_some _ _ _ Ev) as [Hlen [pattern [g [Hin [Hg Hs]]]]].
    exists s. split; [reflexivity |]. split; [exact Hlen |].
    split; [rewrite Hs; apply strip_idempotent |].
    left. exists pattern, g. auto.
  - destruct (PyString.any_in business_indicators (PyString.lower text)); [| auto].
    exists "Business entity detected". split; [reflexivity |].
    split; [cbn; lia |]. split; [reflexivity |]. right. auto.
Qed.

End ExtractorProperties.

(** *** [validate_bill_format] *)

Lemma word_count_lower in_word s :
  word_count_from in_word (PyString.lower s) = word_count_from in_word s.
Proof.
  revert in_word. induction s as [|c s IH]; intros in_word; [reflexivity |].
  cbn [PyString.lower word_count_from].
  assert (Hc : PyString.is_space (PyString.lower_char c) = PyString.is_space c).
  { unfold PyString.lower_char. destruct (PyString.is_upper c) eqn:Eu; [| reflexivity].
    destruct c as [[|] [|] [|] [|] [|] [|] [|] [|]]; try discriminate Eu; reflexivity. }
  rewrite Hc, !IH. reflexivity.
Qed.

Lemma prefix_split sub s :
  String.prefix sub s = true -> exists post, s = sub ++ post.
Proof.
  revert s. induction sub as [|c sub IH]; intros s H; [exists s; reflexivity |].
  destruct s as [|c' s]; [discriminate H |]. cbn in H.
  destruct (ascii_dec c c') as [<- |]; [| discriminate H].
  destruct (IH s H) as [post ->]. exists post. reflexivity.
Qed.

Lemma prefix_app sub post : String.prefix sub (sub ++ post) = true.
Proof.
  induction sub as [|c sub IH]; [destruct post; reflexivity |].
  change (String c sub ++ post) with (String c (sub ++ post)). cbn.
  destruct (ascii_dec c c); [exact IH | congruence].
Qed.

Lemma contains_split sub s :
  PyString.contains sub s = true <-> exists before after, s = before ++ sub ++ after.
Proof.
  split.
  - induction s as [|c s IH]; cbn [PyString.contains]; intros H;
      apply orb_true_iff in H; destruct H as [H | H]; try discriminate H.
    + apply prefix_split in H. destruct H as [post H]. exists "", post. exact H.
    + apply prefix_split in H. destruct H as [post H]. exists "", post. exact H.
    + destruct (IH H) as [before [after ->]]. exists (String c before), after. reflexivity.
  - intros [before [after ->]]. apply contains_app_l.
    destruct (sub ++ after) as [|c t] eqn:E; cbn [PyString.contains];
      rewrite <- E, prefix_app; reflexivity.
Qed.

Lemma string_app_assoc (s1 s2 s3 : string) : (s1 ++ s2) ++ s3 = s1 ++ s2 ++ s3.
Proof.
  induction s1 as [|c s1 IH]; [reflexivity |].
  change ((String c s1 ++ s2) ++ s3) with (String c ((s1 ++ s2) ++ s3)).
  rewrite IH. reflexivity.
Qed.

(** A word that occurs inside a keyword occurs wherever the keyword does. *)
Lemma contains_inside inner before after s :
  PyString.contains (before ++ inner ++ after) s = true ->
  PyString.contains inner s = true.
Proof.
  intros H. apply contains_split in H. destruct H as [b [a ->]].
  apply contains_split. exists (b ++ before), (after ++ a).
  rewrite !string_app_assoc. reflexivity.
Qed.

(** X18. [validate_bill_format] accepts a text exactly when its lowered form
    holds a bill keyword, a business word, an amount word and a date word,
    at least two of the structure words, and the text has at least twenty
    words: a text of fewer than twenty words is refused whatever it says.
    Letter case plays no part, and the verdict is true exactly with the
    message of success. *)
Theorem bill_format_acceptance groq_response :
  let content := PyString.lower groq_response in
  (fst (validate_bill_format groq_response) = true
   <-> PyString.any_in BillFormat.bill_keywords content = true
       /\ PyString.any_in BillFormat.business_indicators content = true
       /\ PyString.any_in BillFormat.amount_indicators content = true
       /\ PyString.any_in BillFormat.date_indicators content = true
       /\ 2 <= BillFormat.structure_score content
       /\ (20 <= word_count groq_response)%nat)
  /\ (fst (validate_bill_format groq_response) = true
      <-> snd (validate_bill_format groq_response)
          = "Document format validated as proper bill/invoice").
Proof.
  intros content. unfold validate_bill_format. fold content.
  replace (word_count content) with (word_count groq_response)
    by (symmetry; apply word_count_lower).
  destruct (PyString.any_in BillFormat.bill_keywords content);
    [| cbn; split; split; try discriminate; intros [H _]; discriminate H].
  destruct (PyString.any_in BillFormat.business_indicators content);
    [| cbn; split; split; try discriminate; intros [_ [H _]]; discriminate H].
  destruct (PyString.any_in BillFormat.amount_indicators content);
    [| cbn; split; split; try discriminate; intros [_ [_ [H _]]]; discriminate H].
  destruct (PyString.any_in BillFormat.date_indicators content);
    [| cbn; split; split; try discriminate; intros [_ [_ [_ [H _]]]]; discriminate H].
  cbn [negb].
  destruct (Z.ltb_spec (BillFormat.structure_score content) 2) as [Hs | Hs];
    [cbn; split; split; try discriminate; intros [_ [_ [_ [_ [H _]]]]]; lia |].
  destruct (Nat.ltb_spec (word_count groq_response) 20) as [Hw | Hw];
    [cbn; split; split; try discriminate; intros [_ [_ [_ [_ [_ H]]]]]; lia |].
  cbn. split; split; try reflexivity. intros _. repeat split; assumption.
Qed.

(** X19. The structure check counts words that lie inside one another: a
    text in which "subtotal" occurs passes both the amount check and the
    structure check on that word alone, since "total" occurs in it. *)
Theorem subtotal_passes_amount_and_structure content :
  PyString.contains "subtotal" content = true ->
  PyString.any_in BillFormat.amount_indicators content = true
  /\ 2 <= BillFormat.structure_score content.
Proof.
  intros Hsub.
  assert (Htotal : PyString.contains "total" content = true)
    by (apply (contains_inside "total" "sub" ""); exact Hsub).
  split.
  - unfold PyString.any_in, BillFormat.amount_indicators. cbn [existsb].
    rewrite Htotal. reflexivity.
  - unfold BillFormat.structure_score, PyString.found_in, BillFormat.structure_indicators.
    cbn [List.filter]. rewrite Hsub. cbn [List.filter].
    destruct (PyString.contains "tax" content); cbn [List.filter]; rewrite Htotal;
      unfold len; cbn [length]; lia.
Qed.

Section MockAndUploadProperties.
Context {B : Builtins}.

(** *** [perform_audit_with_mock] *)

Lemma mock_item_cases rd item violations violations' :
  mock_item rd item violations = Return violations' ->
  violations' = violations
  \/ exists d rule v,
       item = PyDict d
       /\ rules_get rd (default (PyStr "Others") (dict_lookup d "category"))
          = Return (Some rule)
       /\ is_restricted rule = true
       /\ violation_type v = "restricted_item"
       /\ violations' = (violations ++ [v])%list.
Proof.
  unfold mock_item. destruct item as [| | | | | |d]; try discriminate.
  cbn [py_get mbind res_bind].
  destruct (rules_get rd (default (PyStr "Others") (dict_lookup d "category")))
    as [[rule|]|e] eqn:Eg; cbn [mbind res_bind]; try discriminate.
  - destruct (is_restricted rule) eqn:Er.
    + destruct (py_getitem (PyDict d) "name") as [name|e]; cbn [mbind res_bind];
        [| discriminate].
      intros H. inversion H. right. exists d, rule. eexists. repeat split; eauto.
    + intros H. inversion H. left. reflexivity.
  - intros H. inversion H. left. reflexivity.
Qed.

Lemma for_each_mock_item rd items violations violations' :
  for_each (mock_item rd) items violations = Return violations' ->
  exists found,
    violations' = (violations ++ found)%list
    /\ Forall (fun v => violation_type v = "restricted_item") found
    /\ (found <> [] ->
        exists d rule,
          In (PyDict d) items
          /\ rules_get rd (default (PyStr "Others") (dict_lookup d "category"))
             = Return (Some rule)
          /\ is_restricted rule = true).
Proof.
  revert violations. induction items as [|item items IH]; intros violations H.
  - inversion H. exists []. rewrite app_nil_r.
    split; [reflexivity | split; [constructor | congruence]].
  - cbn [for_each] in H.
    destruct (mock_item rd item violations) as [vs1|e] eqn:Estep; cbn [mbind res_bind] in H;
      [| discriminate H].
    destruct (IH _ H) as [found [-> [Htypes Hwhy]]].
    apply mock_item_cases in Estep.
    destruct Estep as [-> | [d [rule [v [-> [Hget [Hr [Hv ->]]]]]]]].
    + exists found. split; [reflexivity | split; [exact Htypes |]].
      intros Hne. destruct (Hwhy Hne) as [d [rule [Hin Hrest]]].
      exists d, rule. split; [right; exact Hin | exact Hrest].
    + exists (v :: found). rewrite <- app_assoc.
      split; [reflexivity | split; [constructor; assumption |]].
      intros _. exists d, rule. split; [left; reflexivity | split; assumption].
Qed.

Lemma perform_audit_with_mock_return mock_data db result :
  perform_audit_with_mock mock_data db = Return result ->
  exists d items violations,
    mock_data = PyDict d
    /\ py_iter (default (PyList []) (dict_lookup d "items")) = Return items
    /\ for_each (mock_item (rules_dict_of db)) items [] = Return violations
    /\ result = mock_result violations.
Proof.
  unfold perform_audit_with_mock. destruct mock_data as [| | | | | |d]; try discriminate.
  cbn [py_get mbind res_bind].
  destruct (py_iter (default (PyList []) (dict_lookup d "items"))) as [items|e] eqn:Ei;
    cbn [mbind res_bind]; [| discriminate].
  destruct (for_each (mock_item (rules_dict_of db)) items []) as [violations|e] eqn:El;
    cbn [mbind res_bind]; [| discriminate].
  intros H. inversion H. exists d, items, violations. auto.
Qed.

(** X20. A result of [perform_audit_with_mock] keeps the invariants of the
    other paths: [total_violations] is the length of [violations], and it is
    compliant exactly when approved. It is rejected, with score 0, exactly
    when it has a violation, and approved with score 100 otherwise; every
    violation is a [restricted_item]. *)
Theorem mock_result_invariants mock_data db result :
  perform_audit_with_mock mock_data db = Return result ->
  total_violations result = len (violations result)
  /\ Forall (fun v => violation_type v = "restricted_item") (violations result)
  /\ ((violations result = []
       /\ is_compliant result = true
       /\ approval_status result = Some "approved"
       /\ status_color result = Some "green"
       /\ compliance_score result = NInt 100)
      \/ (violations result <> []
          /\ is_compliant result = false
          /\ approval_status result = Some "rejected"
          /\ status_color result = Some "red"
          /\ compliance_score result = NInt 0)).
Proof.
  intros H. apply perform_audit_with_mock_return in H.
  destruct H as [d [items [vs [_ [_ [Hloop ->]]]]]].
  apply for_each_mock_item in Hloop. destruct Hloop as [found [-> [Htypes _]]].
  cbn [app]. split; [reflexivity |]. split; [exact Htypes |].
  destruct found as [|v found]; [left | right]; cbn; repeat split. discriminate.
Qed.

(** X21. What the mock audit rejects the real audit rejects: for the same
    parsed invoice and the same rules, when every item is one the loop of
    [perform_audit] accepts, a rejection by [perform_audit_with_mock] means
    [perform_audit] rejects too. *)
Theorem mock_rejection_implies_rejection groq_response json_data db d items result :
  json_loads json_data = Return (PyDict d) ->
  default (PyList []) (dict_lookup d "items") = PyList items ->
  Forall (fun item => is_Some (read_item item)) items ->
  perform_audit_with_mock (PyDict d) db = Return result ->
  approval_status result = Some "rejected" ->
  approval_status (perform_audit groq_response json_data db) = Some "rejected".
Proof.
  intros Hload Hitems Hread Hmock Hrejected.
  rewrite (perform_audit_items _ _ _ _ _ Hload Hitems Hread).
  apply perform_audit_with_mock_return in Hmock.
  destruct Hmock as [d' [items' [vs [Hd [Hiter [Hloop ->]]]]]].
  inversion Hd. subst d'. rewrite Hitems in Hiter. inversion Hiter. subst items'.
  apply for_each_mock_item in Hloop. destruct Hloop as [found [-> [_ Hwhy]]].
  cbn [app] in Hrejected.
  destruct found as [|v found]; [discriminate Hrejected |].
  destruct (Hwhy ltac:(discriminate)) as [di [rule [Hin [Hget Hr]]]].
  assert (Hli : exists li, read_item (PyDict di) = Some li
                           /\ item_restricted (rules_dict_of db) li = true).
  { pose proof (proj1 (List.Forall_forall _ _) Hread (PyDict di) Hin) as [li Hli].
    exists li. split; [exact Hli |].
    unfold read_item in Hli.
    destruct (py_float (default (PyInt 0) (dict_lookup di "amount"))); [| discriminate Hli].
    destruct (hashable (default (PyStr "Others") (dict_lookup di "category")));
      [| discriminate Hli].
    inversion Hli. unfold item_restricted. cbn [item_category].
    destruct (default (PyStr "Others") (dict_lookup di "category")) as [| | | |c| |];
      cbn in Hget; try discriminate Hget.
    inversion Hget as [Hc]. cbn [resolve_rule]. rewrite Hc. exact Hr. }
  destruct Hli as [li [Hli Hlr]].
  assert (Hex : existsb (item_restricted (rules_dict_of db)) (omap read_item items) = true).
  { apply existsb_exists. exists li. split; [| exact Hlr].
    apply list_elem_of_In, list_elem_of_omap. exists (PyDict di).
    split; [apply list_elem_of_In; exact Hin | exact Hli]. }
  unfold category_audit. cbn. rewrite Hex. reflexivity.
Qed.

(** *** [upload_document] *)

Lemma decide_result_summary st :
  summary (decide_result st) <> "Document processed - Not an invoice, no audit required".
Proof.
  unfold decide_result.
  destruct (0 <? len (restricted_items st)); [| destruct (0 <? len (amount_violations st))];
    cbn; destruct (st_violations st); discriminate.
Qed.

(** X22. A document [upload_document] goes on to save has an invoice keyword
    in its lowered text and carries the result of [perform_audit], which is
    not rejected and is never the "not an invoice" approval: the check made
    before the audit leaves that branch of the fallback without a caller. *)
Theorem saved_document_audit upload groq_response json_data db url result :
  upload_document_audit upload groq_response json_data db = Main.SaveDocument url result ->
  upload = Return url
  /\ PyString.any_in invoice_keywords (PyString.lower groq_response) = true
  /\ result = perform_audit groq_response json_data db
  /\ approval_status result <> Some "rejected"
  /\ summary result <> "Document processed - Not an invoice, no audit required".
Proof.
  unfold upload_document_audit.
  change Main.invoice_keywords with invoice_keywords.
  destruct (PyString.any_in invoice_keywords (PyString.lower groq_response)) eqn:Ei;
    cbn [negb]; [| discriminate].
  destruct upload as [u|e]; [| discriminate].
  destruct (approval_status (perform_audit groq_response json_data db)) as [status|] eqn:Es.
  - destruct (String.eqb status "rejected") eqn:Er; [discriminate |].
    intros H. inversion H. subst u result.
    split; [reflexivity |]. split; [reflexivity |]. split; [reflexivity |].
    split; [rewrite Es; intros Hs; inversion Hs; subst status; discriminate Er |].
    unfold perform_audit in *.
    destruct (perform_audit_try groq_response json_data db) as [r|e] eqn:Et.
    + apply perform_audit_try_return in Et. destruct Et as [st ->].
      apply decide_result_summary.
    + destruct (is_json_decode_error e); [| discriminate Es].
      unfold keyword_fallback. rewrite Ei. cbn [negb].
      destruct (PyString.found_in alcohol_keywords (PyString.lower groq_response));
        discriminate.
  - intros H. inversion H. subst u result.
    split; [reflexivity |]. split; [reflexivity |]. split; [reflexivity |].
    split; [rewrite Es; discriminate |].
    unfold perform_audit in *.
    destruct (perform_audit_try groq_response json_data db) as [r|e] eqn:Et.
    + apply perform_audit_try_return in Et. destruct Et as [st ->].
      apply decide_result_summary.
    + destruct (is_json_decode_error e); [| discriminate].
      unfold keyword_fallback. rewrite Ei. cbn [negb].
      destruct (PyString.found_in alcohol_keywords (PyString.lower groq_response));
        discriminate.
Qed.

(** X23. Only a rejection stops an upload: when the audit itself fails (the
    [try] block of [perform_audit] raises something other than
    [JSONDecodeError]) the document of an invoice text is saved all the
    same, with the degraded result. *)
Theorem failed_audit_is_saved url groq_response json_data db e :
  PyString.any_in invoice_keywords (PyString.lower groq_response) = true ->
  perform_audit_try groq_response json_data db = Raise e ->
  exn_cls e <> JSONDecodeError ->
  upload_document_audit (Return url) groq_response json_data db
  = Main.SaveDocument url (processing_error e).
Proof.
  intros Hi Htry Hcls. unfold upload_document_audit.
  change Main.invoice_keywords with invoice_keywords. rewrite Hi. cbn [negb].
  unfold perform_audit. rewrite Htry, (class_not_json e (exn_cls e) eq_refl Hcls).
  reflexivity.
Qed.

End MockAndUploadProperties.

(** *** Seeding the tables *)

(** X24. Seeding is idempotent and never touches a table that has rows:
    [create_default_audit_rules] and [create_default_audit_policies] add
    their rows to an empty table only, so a second call changes nothing, and
    a table with rows but no "Others" rule stays without one. *)
Theorem seeding_is_idempotent active :
  (forall table, create_default_audit_rules (create_default_audit_rules table)
                 = create_default_audit_rules table)
  /\ (forall table, table <> [] -> create_default_audit_rules table = table)
  /\ (forall table,
        create_default_audit_policies active (create_default_audit_policies active table)
        = create_default_audit_policies active table)
  /\ (forall table, table <> [] -> create_default_audit_policies active table = table).
Proof.
  repeat split.
  - intros [|rule table]; reflexivity.
  - intros [|rule table] H; [congruence | reflexivity].
  - intros [|policy table]; reflexivity.
  - intros [|policy table] H; [congruence | reflexivity].
Qed.


(** * The further properties on the sample data *)

Lemma non_object_json_degrades_witness :
  approval_status (@perform_audit sample_builtins "Invoice for taxi" "[]" default_rules) = None
  /\ map message (violations (@perform_audit sample_builtins "Invoice for taxi" "[]"
                                default_rules))
     = ["Error processing audit: 'list' object has no attribute 'get'"].
Proof.
  rewrite (@non_object_json_degrades sample_builtins "Invoice for taxi" "[]" default_rules
             (PyList []) eq_refl ltac:(discriminate)).
  split; reflexivity.
Defined.

Lemma no_items_is_approved_witness :
  approval_status (@perform_audit wider_builtins "Invoice for nothing" "{}" default_rules)
  = Some "approved".
Proof.
  rewrite (@no_items_is_approved wider_builtins "Invoice for nothing" "{}" default_rules []
             eq_refl eq_refl).
  reflexivity.
Defined.




Lemma violation_counts_witness :
  total_violations
    (@perform_audit wider_builtins "Invoice for expensive meal" dinner_and_wine_text
       default_rules) = 2
  /\ summary
       (@perform_audit wider_builtins "Invoice for expensive meal" dinner_and_wine_text
          default_rules)
     = "Cannot approve - 1 restricted items found".
Proof.
  destruct (@violation_counts wider_builtins "Invoice for expensive meal" dinner_and_wine_text
              default_rules
              [("items", PyList [item_value "Expensive Dinner" "Food" (PyFloat 2000);
                                 item_value "Wine Bottle" "Alcohol" (PyFloat 500)]);
               ("total_amount", PyFloat 2500)]
              [item_value "Expensive Dinner" "Food" (PyFloat 2000);
               item_value "Wine Bottle" "Alcohol" (PyFloat 500)]
              eq_refl eq_refl ltac:(repeat constructor; eexists; reflexivity))
    as [Htotal [_ [Hsummary _]]].
  split; [rewrite Htotal; reflexivity | rewrite (Hsummary eq_refl); reflexivity].
Defined.

Lemma fallback_rejection_survives_extension_witness :
  approval_status
    (@perform_audit sample_builtins ("Scanned copy. " ++ whiskey_response ++ " Thank you.")
       "invalid json" default_rules)
  = Some "rejected".
Proof.
  apply (@fallback_rejection_survives_extension sample_builtins whiskey_response
           "invalid json" default_rules
           (Exn JSONDecodeError "Expecting value: line 1 column 1 (char 0)")
           "Scanned copy. " " Thank you." eq_refl eq_refl eq_refl).
Defined.

Lemma active_content_warning_raises_witness :
  exists e,
    @validate_against_policies sample_builtins [("amount", PyFloat 45)]
      [amount_required_policy; alcohol_beer_policy; date_required_policy] = Raise e.
Proof.
  apply (@active_content_warning_raises sample_builtins _ _ alcohol_beer_policy);
    [right; left; reflexivity | reflexivity | reflexivity | reflexivity].
Defined.

Lemma violations_come_from_active_policies_witness :
  exists result,
    @validate_against_policies sample_builtins
      (@extract_invoice_data sample_builtins comma_response) sample_policies = Return result
    /\ map v_rule_name (violations result) = ["Date Required"; "Vendor Name Required"]
    /\ total_violations result <= len (List.filter is_active sample_policies).
Proof.
  eexists. split; [reflexivity |]. split; [reflexivity |].
  apply (@violations_come_from_active_policies sample_builtins
           (@extract_invoice_data sample_builtins comma_response) sample_policies _ eq_refl).
Defined.

(** An amount of 0.0 is missing for "Amount Required" and is not compared
    with the minimum 1. *)
Lemma falsy_field_is_missing_and_unchecked_witness :
  (exists v,
      @check_policy sample_builtins [("amount", PyFloat 0)] amount_required_policy
      = Return (Some v)
      /\ message v = "Amount is required but missing")
  /\ @check_policy sample_builtins [("amount", PyFloat 0)] minimum_amount_policy = Return None.
Proof.
  split.
  - destruct (@falsy_field_is_missing_and_unchecked sample_builtins [("amount", PyFloat 0)]
                amount_required_policy eq_refl) as [Hmissing _].
    destruct (Hmissing eq_refl eq_refl) as [v [Hv [_ Hmsg]]].
    exists v. split; [exact Hv | exact Hmsg].
  - destruct (@falsy_field_is_missing_and_unchecked sample_builtins [("amount", PyFloat 0)]
                minimum_amount_policy eq_refl) as [_ Hskip].
    apply Hskip. left. reflexivity.
Defined.

Lemma basic_audit_returns_witness :
  exists result,
    @perform_basic_audit sample_builtins comma_response
      (sample_policies ++ [minimum_amount_policy]) = Return result.
Proof.
  apply (@basic_audit_returns sample_builtins).
  repeat constructor; discriminate.
Defined.

Lemma subtotal_passes_amount_and_structure_witness :
  PyString.any_in BillFormat.amount_indicators "subtotal: 12" = true
  /\ 2 <= BillFormat.structure_score "subtotal: 12".
Proof.
  apply subtotal_passes_amount_and_structure. reflexivity.
Defined.

Lemma mock_result_invariants_witness :
  exists result,
    @perform_audit_with_mock sample_builtins restricted_value default_rules = Return result
    /\ approval_status result = Some "rejected"
    /\ total_violations result = len (violations result).
Proof.
  eexists. split; [reflexivity |]. split; [reflexivity |].
  apply (@mock_result_invariants sample_builtins restricted_value default_rules _ eq_refl).
Defined.

Lemma mock_rejection_implies_rejection_witness :
  approval_status
    (@perform_audit sample_builtins "Invoice with alcohol purchase" restricted_text
       default_rules)
  = Some "rejected".
Proof.
  apply (@mock_rejection_implies_rejection sample_builtins "Invoice with alcohol purchase"
           restricted_text default_rules
           [("items", PyList [item_value "Wine Bottle" "Alcohol" (PyFloat 500);
                              item_value "Business Lunch" "Food" (PyFloat 800)]);
            ("total_amount", PyFloat 1300)]
           [item_value "Wine Bottle" "Alcohol" (PyFloat 500);
            item_value "Business Lunch" "Food" (PyFloat 800)]
           _ eq_refl eq_refl ltac:(repeat constructor; eexists; reflexivity) eq_refl eq_refl).
Defined.

Lemma saved_document_audit_witness :
  exists result,
    @upload_document_audit sample_builtins (Return "https://res.example/documents/a.pdf")
      "Invoice for expensive meal" exceeded_text default_rules
    = Main.SaveDocument "https://res.example/documents/a.pdf" result
    /\ approval_status result = Some "warning"
    /\ approval_status result <> Some "rejected".
Proof.
  eexists. split; [reflexivity |]. split; [reflexivity |].
  apply (@saved_document_audit sample_builtins
           (Return "https://res.example/documents/a.pdf")
           "Invoice for expensive meal" exceeded_text default_rules
           "https://res.example/documents/a.pdf" _ eq_refl).
Defined.

Lemma failed_audit_is_saved_witness :
  @upload_document_audit sample_builtins (Return "https://res.example/documents/b.pdf")
    "Invoice for taxi" unparsable_text default_rules
  = Main.SaveDocument "https://res.example/documents/b.pdf"
      (processing_error (Exn ValueError "could not convert string to float: 'abc'")).
Proof.
  apply (@failed_audit_is_saved sample_builtins "https://res.example/documents/b.pdf"
           "Invoice for taxi" unparsable_text default_rules
           (Exn ValueError "could not convert string to float: 'abc'")
           eq_refl eq_refl ltac:(discriminate)).
Defined.
